(** * Coffee machine: domain layer, persistence and service

    A shallow embedding of [backend/app] (errors.py, machine.py, storage.py,
    service.py and the exception handlers of main.py), followed by the
    properties of the specification that were checked against it.

    Python integers are unbounded, hence [Z].  A method that mutates [self]
    and may raise is a computation in the monad [Py S], which threads the
    object and keeps whatever was already written when an exception leaves
    the method. *)

From Stdlib Require Import ZArith Lia Ascii String DecimalString.
From stdpp Require Import base option strings list gmap.

Open Scope string_scope.
Open Scope Z_scope.

(* ===================================================================== *)
(** ** Formatting helpers (Python [str(int)], f-strings) *)
(* ===================================================================== *)

(** [str(n)] for an integer: decimal digits with a leading minus sign. *)
Definition str_int (n : Z) : string := NilZero.string_of_int (Z.to_int n).

(* ===================================================================== *)
(** ** errors.py and the built-in exceptions the code can raise *)
(* ===================================================================== *)

Inductive exn : Type :=
  | ContainerEmptyError (container_name : string)
                        (required_amount available_amount : Z)
  | ContainerOverflowError (container_name : string)
                           (attempted_amount free_capacity : Z)
  | InvalidFillAmountError (container_name : string) (attempted_amount : Z)
  | ValueError (msg : string)
  | JSONDecodeError (msg : string)
  | KeyError (key : string)
  | TypeError (msg : string)
  | FileNotFoundError (path : string)
  | OperationalError (msg : string)
  | ValidationError (msg : string).

(** [isinstance(exc, CoffeeMachineError)]: only the three dataclasses of
    errors.py derive from the base class; [ValueError] is a built-in and
    [json.JSONDecodeError] is a subclass of [ValueError]. *)
Definition is_CoffeeMachineError (exc : exn) : bool :=
  match exc with
  | ContainerEmptyError _ _ _
  | ContainerOverflowError _ _ _
  | InvalidFillAmountError _ _ => true
  | ValueError _ | JSONDecodeError _ | KeyError _ | TypeError _
  | FileNotFoundError _ | OperationalError _ | ValidationError _ => false
  end.

(** The classes of these exceptions and the classes they derive from:
    the built-in ones, [json.JSONDecodeError], the [sqlite3] errors and
    pydantic's [ValidationError]. *)
Module Cls.

Inductive t : Type :=
  | BaseException
  | Exception
  | RuntimeError
  | CoffeeMachineError
  | ContainerEmptyError
  | ContainerOverflowError
  | InvalidFillAmountError
  | ValueError
  | JSONDecodeError
  | ValidationError
  | LookupError
  | KeyError
  | TypeError
  | OSError
  | FileNotFoundError
  | SqliteError
  | DatabaseError
  | OperationalError.

#[global] Instance eq_dec : EqDecision t.
Proof. solve_decision. Defined.

(** The base class in the [class] statement, [None] at the root. *)
Definition base (c : t) : option t :=
  match c with
  | BaseException => None
  | Exception => Some BaseException
  | RuntimeError => Some Exception
  | CoffeeMachineError => Some RuntimeError
  | ContainerEmptyError => Some CoffeeMachineError
  | ContainerOverflowError => Some CoffeeMachineError
  | InvalidFillAmountError => Some CoffeeMachineError
  | ValueError => Some Exception
  | JSONDecodeError => Some ValueError
  | ValidationError => Some ValueError
  | LookupError => Some Exception
  | KeyError => Some LookupError
  | TypeError => Some Exception
  | OSError => Some Exception
  | FileNotFoundError => Some OSError
  | SqliteError => Some Exception
  | DatabaseError => Some SqliteError
  | OperationalError => Some DatabaseError
  end.

(** [issubclass(c, d)], climbing at most [depth] base classes. *)
Fixpoint climbs (depth : nat) (c d : t) : bool :=
  bool_decide (c = d)
  || match depth, base c with
     | S depth', Some b => climbs depth' b d
     | _, _ => false
     end.

Definition issubclass (c d : t) : bool := climbs 5 c d.

End Cls.

(** [type(exc)]. *)
Definition type_of (exc : exn) : Cls.t :=
  match exc with
  | ContainerEmptyError _ _ _ => Cls.ContainerEmptyError
  | ContainerOverflowError _ _ _ => Cls.ContainerOverflowError
  | InvalidFillAmountError _ _ => Cls.InvalidFillAmountError
  | ValueError _ => Cls.ValueError
  | JSONDecodeError _ => Cls.JSONDecodeError
  | KeyError _ => Cls.KeyError
  | TypeError _ => Cls.TypeError
  | FileNotFoundError _ => Cls.FileNotFoundError
  | OperationalError _ => Cls.OperationalError
  | ValidationError _ => Cls.ValidationError
  end.

(** [isinstance(exc, c)]. *)
Definition isinstance (exc : exn) (c : Cls.t) : bool :=
  Cls.issubclass (type_of exc) c.

(** [str(exc)], from the [__str__] methods of errors.py. *)
Definition exn_str (exc : exn) : string :=
  match exc with
  | ContainerEmptyError container_name required_amount available_amount =>
      "Cannot make coffee because the " ++ container_name ++ " container "
      ++ "only has " ++ str_int available_amount ++ " available but "
      ++ str_int required_amount ++ " is required."
  | ContainerOverflowError container_name attempted_amount free_capacity =>
      "Adding " ++ str_int attempted_amount ++ " to the " ++ container_name
      ++ " container would overflow it. "
      ++ "It has room for only " ++ str_int free_capacity ++ " more."
  | InvalidFillAmountError container_name attempted_amount =>
      "The amount (" ++ str_int attempted_amount ++ ") to add to the "
      ++ container_name ++ " container "
      ++ "must be a positive number."
  | ValueError msg => msg
  | JSONDecodeError msg => msg
  | KeyError key => "'" ++ key ++ "'"
  | TypeError msg => msg
  | FileNotFoundError path => "[Errno 2] No such file or directory: '" ++ path ++ "'"
  | OperationalError msg => msg
  | ValidationError msg => msg
  end.

(* ===================================================================== *)
(** ** Methods that mutate [self] and may raise *)
(* ===================================================================== *)

(** A computation over an object of type [S]: the final object together
    with either the raised exception or the returned value. *)
Definition Py (S A : Type) : Type := S -> S * (exn + A).

Definition raise {S A} (e : exn) : Py S A := fun s => (s, inl e).

#[global] Instance Py_ret {S} : MRet (Py S) :=
  fun A (a : A) s => (s, inr a).

#[global] Instance Py_bind {S} : MBind (Py S) :=
  fun A B (k : A -> Py S B) (c : Py S A) s =>
    match c s with
    | (s', inl e) => (s', inl e)
    | (s', inr a) => k a s'
    end.

Definition get {S} : Py S S := fun s => (s, inr s).

Definition modify {S} (f : S -> S) : Py S unit := fun s => (f s, inr tt).

(** Calling a method of a field: [proj] reads the field, [upd] stores the
    field's object back into the owner. *)
Definition on_field {S T A} (proj : S -> T) (upd : T -> S -> S)
    (c : Py T A) : Py S A :=
  fun s => let '(t', r) := c (proj s) in (upd t' s, r).

(** Expressions that read no object: they either raise or give a value. *)
#[global] Instance result_ret : MRet (sum exn) := fun A (a : A) => inr a.

#[global] Instance result_bind : MBind (sum exn) :=
  fun A B (k : A -> exn + B) (r : exn + A) =>
    match r with
    | inl e => inl e
    | inr a => k a
    end.

Definition lift {S A} (r : exn + A) : Py S A := fun s => (s, r).

(** The object a call leaves behind, and what the call produced. *)
Definition state_of {S A} (r : S * (exn + A)) : S := fst r.
Definition outcome {S A} (r : S * (exn + A)) : exn + A := snd r.

(* ===================================================================== *)
(** ** JSON documents (what [to_dict] builds and [json.load] returns) *)
(* ===================================================================== *)

(** A [dict] keeps insertion order; [dict_get] reads the first binding of a
    key.  Floats never occur in a snapshot and are left out. *)
#[warnings="-register-all"]
Inductive json : Type :=
  | JNull
  | JBool (b : bool)
  | JInt (n : Z)
  | JStr (s : string)
  | JList (items : list json)
  | JDict (items : list (string * json)).

(** [data[key]] with a string key: [KeyError] on a dict without the key,
    [TypeError] on a value that is not a dict. *)
Definition subscript (data : json) (key : string) : exn + json :=
  match data with
  | JDict items =>
      match List.find (fun kv => String.eqb (fst kv) key) items with
      | Some kv => inr (snd kv)
      | None => inl (KeyError key)
      end
  | JNull => inl (TypeError "'NoneType' object is not subscriptable")
  | JBool _ => inl (TypeError "'bool' object is not subscriptable")
  | JInt _ => inl (TypeError "'int' object is not subscriptable")
  | JStr _ => inl (TypeError "string indices must be integers, not 'str'")
  | JList _ =>
      inl (TypeError "list indices must be integers or slices, not str")
  end.

(** [data.get(key)] on a dict: a missing key reads as [None]. *)
Definition dict_get (data : json) (key : string) : exn + json :=
  match data with
  | JDict items =>
      match List.find (fun kv => String.eqb (fst kv) key) items with
      | Some kv => inr (snd kv)
      | None => inr JNull
      end
  | _ => inl (TypeError "object has no attribute 'get'")
  end.

(** The dataclasses do not check their field types: a value of another
    type would be stored as it is.  The records below are typed, so the
    embedding stops with a [TypeError] where Python would go on with an
    ill-typed object. *)
Definition as_int (v : json) : exn + Z :=
  match v with
  | JInt n => inr n
  | _ => inl (TypeError "expected int")
  end.

Definition as_str (v : json) : exn + string :=
  match v with
  | JStr s => inr s
  | _ => inl (TypeError "expected str")
  end.

Definition as_optional_str (v : json) : exn + option string :=
  match v with
  | JNull => inr None
  | JStr s => inr (Some s)
  | _ => inl (TypeError "expected str or None")
  end.

(** Python truthiness, as used by [if state:]. *)
Definition truthy (v : json) : bool :=
  match v with
  | JNull => false
  | JBool b => b
  | JInt n => negb (Z.eqb n 0)
  | JStr s => match s with EmptyString => false | _ => true end
  | JList items => match items with [] => false | _ => true end
  | JDict items => match items with [] => false | _ => true end
  end.

(* ===================================================================== *)
(** ** machine.py *)
(* ===================================================================== *)

Record Recipe : Type := { water_ml : Z; coffee_g : Z }.

#[global] Instance Recipe_eq_dec : EqDecision Recipe.
Proof. solve_decision. Defined.

Definition RECIPES : gmap string Recipe :=
  <["ristretto" := {| water_ml := 16; coffee_g := 8 |}]>
  (<["americano" := {| water_ml := 148; coffee_g := 16 |}]>
  (<["double_espresso" := {| water_ml := 48; coffee_g := 16 |}]>
  (<["espresso" := {| water_ml := 24; coffee_g := 8 |}]> ∅))).

Module Container.

Record t : Type := mk {
  name : string;
  capacity : Z;
  level : Z;
  unit : string
}.

Definition set_level (l : Z) (self : t) : t :=
  {| name := name self; capacity := capacity self;
     level := l; unit := unit self |}.

Definition use (amount : Z) : Py t Datatypes.unit :=
  self ← get;
  if level self <? amount then
    raise (ContainerEmptyError (name self) amount (level self))
  else
    modify (set_level (level self - amount)).

Definition fill (amount : Z) : Py t Datatypes.unit :=
  self ← get;
  if amount <=? 0 then
    raise (InvalidFillAmountError (name self) amount)
  else
    let free_space := capacity self - level self in
    if free_space <? amount then
      raise (ContainerOverflowError (name self) amount free_space)
    else
      modify (set_level (level self + amount)).

Definition to_dict (self : t) : json :=
  JDict [ ("capacity", JInt (capacity self));
          ("level", JInt (level self));
          ("unit", JStr (unit self));
          ("name", JStr (name self)) ].

Definition from_dict (data : json) : exn + t :=
  name ← subscript data "name" ≫= as_str;
  capacity ← subscript data "capacity" ≫= as_int;
  level ← subscript data "level" ≫= as_int;
  unit ← subscript data "unit" ≫= as_str;
  mret (mk name capacity level unit).

End Container.

Module CoffeeMachine.

Record t : Type := mk {
  water_container : Container.t;
  coffee_container : Container.t;
  last_message : option string
}.

Definition set_water_container (c : Container.t) (self : t) : t :=
  {| water_container := c; coffee_container := coffee_container self;
     last_message := last_message self |}.

Definition set_coffee_container (c : Container.t) (self : t) : t :=
  {| water_container := water_container self; coffee_container := c;
     last_message := last_message self |}.

Definition set_last_message (msg : string) (self : t) : t :=
  {| water_container := water_container self;
     coffee_container := coffee_container self;
     last_message := Some msg |}.

Definition on_water {A} : Py Container.t A -> Py t A :=
  on_field water_container set_water_container.

Definition on_coffee {A} : Py Container.t A -> Py t A :=
  on_field coffee_container set_coffee_container.

(** [str.title] on ASCII text: a letter that follows a non-letter is
    upper-cased, a letter that follows a letter is lower-cased. *)
Definition is_upper (c : ascii) : bool :=
  ((65 <=? nat_of_ascii c) && (nat_of_ascii c <=? 90))%nat.
Definition is_lower (c : ascii) : bool :=
  ((97 <=? nat_of_ascii c) && (nat_of_ascii c <=? 122))%nat.
Definition to_upper (c : ascii) : ascii :=
  if is_lower c then ascii_of_nat (nat_of_ascii c - 32) else c.
Definition to_lower (c : ascii) : ascii :=
  if is_upper c then ascii_of_nat (nat_of_ascii c + 32) else c.

Fixpoint title_from (previous_is_cased : bool) (s : string) : string :=
  match s with
  | EmptyString => EmptyString
  | String c rest =>
      if is_lower c || is_upper c then
        String (if previous_is_cased then to_lower c else to_upper c)
               (title_from true rest)
      else String c (title_from false rest)
  end.

Definition title (s : string) : string := title_from false s.

(** [s.replace(old, new)] for one-character [old] and [new]. *)
Fixpoint replace_char (old new : ascii) (s : string) : string :=
  match s with
  | EmptyString => EmptyString
  | String c rest =>
      String (if Ascii.eqb c old then new else c) (replace_char old new rest)
  end.

Definition _friendly_name (recipe_key : string) : string :=
  title (replace_char "_" " " recipe_key).

Definition brew (recipe_key : string) : Py t Recipe :=
  match RECIPES !! recipe_key with
  | None => raise (ValueError ("Unknown recipe '" ++ recipe_key ++ "'"))
  | Some recipe =>
      on_water (Container.use (water_ml recipe));;
      on_coffee (Container.use (coffee_g recipe));;
      modify (set_last_message (_friendly_name recipe_key ++ " is ready!"));;
      mret recipe
  end.

Definition fill_water (amount_ml : Z) : Py t unit :=
  on_water (Container.fill amount_ml);;
  modify (set_last_message ("Added " ++ str_int amount_ml ++ " ml of water.")).

Definition fill_coffee (amount_g : Z) : Py t unit :=
  on_coffee (Container.fill amount_g);;
  modify (set_last_message ("Added " ++ str_int amount_g ++ " g of coffee.")).

Definition json_of_message (msg : option string) : json :=
  match msg with None => JNull | Some s => JStr s end.

Definition to_dict (self : t) : json :=
  JDict [ ("water", Container.to_dict (water_container self));
          ("coffee", Container.to_dict (coffee_container self));
          ("last_message", json_of_message (last_message self)) ].

Definition status : Py t json :=
  self ← get;
  mret (JDict [ ("water", Container.to_dict (water_container self));
                ("coffee", Container.to_dict (coffee_container self));
                ("last_message", json_of_message (last_message self)) ]).

Definition from_dict (data : json) : exn + t :=
  water ← subscript data "water" ≫= Container.from_dict;
  coffee ← subscript data "coffee" ≫= Container.from_dict;
  msg ← dict_get data "last_message" ≫= as_optional_str;
  mret (mk water coffee msg).

End CoffeeMachine.

Definition default_machine (water_capacity coffee_capacity : Z)
    : CoffeeMachine.t :=
  CoffeeMachine.mk
    (Container.mk "water" water_capacity water_capacity "ml")
    (Container.mk "coffee" coffee_capacity coffee_capacity "g")
    None.


(* ===================================================================== *)
(** ** The standard library the persistence layer calls *)
(* ===================================================================== *)

(** [json.dumps(data, indent=...)], [json.loads] and [Path.with_suffix] are
    library code.  [json_loads] gives the decoder's message when the text
    is not a JSON document. *)
Class PyLib : Type := {
  text : Type;
  json_dumps : option nat -> json -> text;
  json_loads : text -> string + json;
  with_suffix : string -> string -> string
}.

(** Values Python can hold: the keys of a dict are pairwise distinct. *)
Fixpoint distinct_keys (keys : list string) : bool :=
  match keys with
  | [] => true
  | k :: rest =>
      negb (existsb (String.eqb k) rest) && distinct_keys rest
  end.

Fixpoint wf_json (v : json) : bool :=
  match v with
  | JList items => forallb wf_json items
  | JDict items =>
      distinct_keys (map fst items)
      && forallb (fun kv => wf_json (snd kv)) items
  | _ => true
  end.

(** What the code relies on: decoding an encoded value gives it back. *)
Class PyLibSpec (L : PyLib) : Prop := {
  json_loads_dumps :
    forall (indent : option nat) (v : json),
      wf_json v = true -> json_loads (json_dumps indent v) = inr v
}.

(** The world outside the process: JSON documents by path, and SQLite
    database files by path.  A database file holds the table
    [machine_state], whose only possible row has [id = 1]; [None] is the
    empty table.

    Scope of this picture.  A file holds decoded text, so a file that is
    not UTF-8 is not in it.  Documents and databases are kept in two maps:
    a path is taken to hold one kind only, and a property that depends on
    it says so.  Failures of the operating system (a missing permission, a
    full disk) are not in it either. *)
Record World `{PyLib} : Type := mkWorld {
  files : gmap string text;
  databases : gmap string (option text)
}.

Definition set_files `{PyLib} (f : gmap string text) (w : World) : World :=
  {| files := f; databases := databases w |}.

Definition set_databases `{PyLib} (d : gmap string (option text))
    (w : World) : World :=
  {| files := files w; databases := d |}.

(* ===================================================================== *)
(** ** storage.py *)
(* ===================================================================== *)

Module JSONStateStorage.

Record t : Type := mk { path : string }.

(** [__init__]: only creates the parent directory. *)
Definition init `{PyLib} (path : string) : Py World t := mret (mk path).

Definition load `{PyLib} (self : t) : Py World (option json) :=
  w ← get;
  match files w !! path self with
  | None => mret None
  | Some handle =>
      match json_loads handle with
      | inr data => mret (Some data)
      | inl msg => raise (JSONDecodeError msg)
      end
  end.

(** [tmp_path.replace(self.path)]: the document moves to the target. *)
Definition replace `{PyLib} (src dst : string) : Py World unit :=
  w ← get;
  match files w !! src with
  | None => raise (FileNotFoundError src)
  | Some doc => modify (set_files (<[dst := doc]> (delete src (files w))))
  end.

(** [with_suffix] is taken on paths that have a file name, where it does
    not raise. *)
Definition save `{PyLib} (data : json) (self : t) : Py World unit :=
  let tmp_path := with_suffix (path self) ".tmp" in
  modify (fun w =>
    set_files (<[tmp_path := json_dumps (Some 2%nat) data]> (files w)) w);;
  replace tmp_path (path self).

End JSONStateStorage.

Module MemoryStateStorage.

Record t : Type := mk { _state : option json }.

Definition init : t := mk None.

Definition load : Py t (option json) :=
  self ← get; mret (_state self).

Definition save `{PyLib} (data : json) : Py t unit :=
  match json_loads (json_dumps None data) with
  | inr copy => modify (fun _ => mk (Some copy))
  | inl msg => raise (JSONDecodeError msg)
  end.

End MemoryStateStorage.

Module SQLiteStateStorage.

Record t : Type := mk { path : string }.

(** [CREATE TABLE IF NOT EXISTS machine_state]. *)
Definition _init_db `{PyLib} (self : t) : Py World unit :=
  modify (fun w =>
    match databases w !! path self with
    | Some _ => w
    | None => set_databases (<[path self := None]> (databases w)) w
    end).

Definition init `{PyLib} (path : string) : Py World t :=
  _init_db (mk path);; mret (mk path).

(** Every storage object is built by [init], after which the database of
    its path exists.  Without it, [sqlite3.connect] would first create an
    empty database file, which the first branch below leaves out. *)
Definition load `{PyLib} (self : t) : Py World (option json) :=
  w ← get;
  match databases w !! path self with
  | None => raise (OperationalError "no such table: machine_state")
  | Some None => mret None
  | Some (Some payload) =>
      match json_loads payload with
      | inr data => mret (Some data)
      | inl msg => raise (JSONDecodeError msg)
      end
  end.

(** [INSERT OR REPLACE INTO machine_state (id, payload) VALUES (1, ?)]. *)
Definition save `{PyLib} (data : json) (self : t) : Py World unit :=
  let serialized := json_dumps None data in
  w ← get;
  match databases w !! path self with
  | None => raise (OperationalError "no such table: machine_state")
  | Some _ =>
      modify (set_databases (<[path self := Some serialized]> (databases w)))
  end.

End SQLiteStateStorage.

(** The [StateStorage] protocol: any of the three classes. *)
Inductive StateStorage : Type :=
  | Json (s : JSONStateStorage.t)
  | Memory (s : MemoryStateStorage.t)
  | Sqlite (s : SQLiteStateStorage.t).

(** A method of a storage object runs on the object and the world. *)
Definition in_world `{PyLib} {A} (c : Py World A)
    : Py (StateStorage * World) A :=
  on_field snd (fun w sw => (fst sw, w)) c.

Definition in_memory `{PyLib} {A} (s : MemoryStateStorage.t)
    (c : Py MemoryStateStorage.t A) : Py (StateStorage * World) A :=
  on_field (fun _ => s) (fun s' sw => (Memory s', snd sw)) c.

Definition load `{PyLib} : Py (StateStorage * World) (option json) :=
  '(self, _) ← get;
  match self with
  | Json s => in_world (JSONStateStorage.load s)
  | Memory s => in_memory s MemoryStateStorage.load
  | Sqlite s => in_world (SQLiteStateStorage.load s)
  end.

Definition save `{PyLib} (data : json) : Py (StateStorage * World) unit :=
  '(self, _) ← get;
  match self with
  | Json s => in_world (JSONStateStorage.save data s)
  | Memory s => in_memory s (MemoryStateStorage.save data)
  | Sqlite s => in_world (SQLiteStateStorage.save data s)
  end.

(** [backend.lower()] on ASCII text. *)
Fixpoint lower (s : string) : string :=
  match s with
  | EmptyString => EmptyString
  | String c rest => String (CoffeeMachine.to_lower c) (lower rest)
  end.

Definition build_storage `{PyLib} (backend : string) (path : string)
    : Py World StateStorage :=
  let backend := lower backend in
  if String.eqb backend "json" then
    s ← JSONStateStorage.init path; mret (Json s)
  else if String.eqb backend "sqlite" then
    s ← SQLiteStateStorage.init path; mret (Sqlite s)
  else if String.eqb backend "memory" then
    mret (Memory MemoryStateStorage.init)
  else
    raise (ValueError ("Unsupported storage backend '" ++ backend ++ "'")).

(* ===================================================================== *)
(** ** config.py (the settings record) and service.py *)
(* ===================================================================== *)

Record Settings : Type := {
  water_capacity_ml : Z;
  coffee_capacity_g : Z;
  storage_path : string;
  storage_backend : string
}.

Definition json_of_recipe (r : Recipe) : json :=
  JDict [ ("water_ml", JInt (water_ml r)); ("coffee_g", JInt (coffee_g r)) ].

(** Every method body runs under [self._lock], so calls never interleave:
    a call is one computation on the service object and the world. *)
Module CoffeeMachineService.

Record t : Type := mk {
  _storage : StateStorage;
  _settings : Settings;
  _machine : CoffeeMachine.t
}.

Definition on_storage `{PyLib} {A} (c : Py (StateStorage * World) A)
    : Py (t * World) A :=
  on_field (fun sw => (_storage (fst sw), snd sw))
           (fun stw sw =>
              (mk (fst stw) (_settings (fst sw)) (_machine (fst sw)),
               snd stw))
           c.

Definition on_machine `{PyLib} {A} (c : Py CoffeeMachine.t A)
    : Py (t * World) A :=
  on_field (fun sw => _machine (fst sw))
           (fun m sw =>
              (mk (_storage (fst sw)) (_settings (fst sw)) m, snd sw))
           c.

Definition _load_machine `{PyLib} (settings : Settings)
    : Py (StateStorage * World) CoffeeMachine.t :=
  state ← load;
  match state with
  | Some data =>
      if truthy data then lift (CoffeeMachine.from_dict data)
      else mret (default_machine (water_capacity_ml settings)
                                 (coffee_capacity_g settings))
  | None => mret (default_machine (water_capacity_ml settings)
                                  (coffee_capacity_g settings))
  end.

(** [__init__]: the new service, or the exception of the first load. *)
Definition init `{PyLib} (storage : StateStorage) (settings : Settings)
    : Py World t :=
  fun w =>
    match _load_machine settings (storage, w) with
    | ((storage', w'), inr machine) =>
        (w', inr (mk storage' settings machine))
    | ((_, w'), inl e) => (w', inl e)
    end.

Definition _persist `{PyLib} : Py (t * World) unit :=
  '(self, _) ← get;
  on_storage (save (CoffeeMachine.to_dict (_machine self))).

Definition brew `{PyLib} (recipe_key : string) : Py (t * World) json :=
  usage ← on_machine (CoffeeMachine.brew recipe_key);
  _persist;;
  '(self, _) ← get;
  status ← on_machine CoffeeMachine.status;
  mret (JDict [
    ("message", CoffeeMachine.json_of_message
                  (CoffeeMachine.last_message (_machine self)));
    ("drink", JStr recipe_key);
    ("used", json_of_recipe usage);
    ("status", status) ]).

Definition fill_water `{PyLib} (amount_ml : Z) : Py (t * World) json :=
  on_machine (CoffeeMachine.fill_water amount_ml);;
  _persist;;
  '(self, _) ← get;
  status ← on_machine CoffeeMachine.status;
  mret (JDict [
    ("message", CoffeeMachine.json_of_message
                  (CoffeeMachine.last_message (_machine self)));
    ("status", status) ]).

Definition fill_coffee `{PyLib} (amount_g : Z) : Py (t * World) json :=
  on_machine (CoffeeMachine.fill_coffee amount_g);;
  _persist;;
  '(self, _) ← get;
  status ← on_machine CoffeeMachine.status;
  mret (JDict [
    ("message", CoffeeMachine.json_of_message
                  (CoffeeMachine.last_message (_machine self)));
    ("status", status) ]).

Definition status `{PyLib} : Py (t * World) json :=
  on_machine CoffeeMachine.status.

End CoffeeMachineService.

(* ===================================================================== *)
(** ** main.py: the exception handlers *)
(* ===================================================================== *)

Record JSONResponse : Type := {
  status_code : Z;
  content : json
}.

Definition HTTP_400_BAD_REQUEST : Z := 400.
Definition HTTP_500_INTERNAL_SERVER_ERROR : Z := 500.

Definition handle_machine_error (exc : exn) : JSONResponse :=
  {| status_code := HTTP_400_BAD_REQUEST;
     content := JDict [ ("message", JStr (exn_str exc)) ] |}.

Definition handle_unexpected_error (exc : exn) : JSONResponse :=
  {| status_code := HTTP_500_INTERNAL_SERVER_ERROR;
     content := JDict [ ("message", JStr "Unexpected error occurred");
                        ("details", JStr (exn_str exc)) ] |}.

(** The handler registered for the most specific class of the exception:
    [CoffeeMachineError] for the domain errors, [Exception] otherwise. *)
Definition exception_handler (exc : exn) : JSONResponse :=
  if is_CoffeeMachineError exc then handle_machine_error exc
  else handle_unexpected_error exc.

(** The framework's handling of an endpoint function: what the function
    returns is sent with status 200, what it raises goes to the exception
    handler. *)
Definition route `{PyLib} (call : Py (CoffeeMachineService.t * World) json)
    : CoffeeMachineService.t * World ->
      (CoffeeMachineService.t * World) * JSONResponse :=
  fun sw =>
    match call sw with
    | (sw', inr body) => (sw', {| status_code := 200; content := body |})
    | (sw', inl exc) => (sw', exception_handler exc)
    end.


(* ===================================================================== *)
(** ** A reference library *)
(* ===================================================================== *)

(** An executable instance of [PyLib] on which the persistence layer can be
    run: a text is either the document it encodes or not JSON at all, and
    [with_suffix] follows [pathlib] on POSIX paths. *)
Fixpoint take_while {A} (keep : A -> bool) (l : list A) : list A :=
  match l with
  | [] => []
  | x :: rest => if keep x then x :: take_while keep rest else []
  end.

Definition final_suffix_start (name : list ascii) : option nat :=
  let after := take_while (fun c => negb (Ascii.eqb c ".")) (rev name) in
  if (length after <? length name)%nat then
    let i := (length name - length after - 1)%nat in
    if ((0 <? i) && (0 <? length after))%nat then Some i else None
  else None.

Definition model_with_suffix (path suffix : string) : string :=
  let chars := list_ascii_of_string path in
  let name_rev := take_while (fun c => negb (Ascii.eqb c "/")) (rev chars) in
  let parent := take (length chars - length name_rev) chars in
  let name := rev name_rev in
  let stem :=
    match final_suffix_start name with
    | Some i => take i name
    | None => name
    end in
  string_of_list_ascii (parent ++ stem) ++ suffix.

Definition model_lib : PyLib := {|
  text := option json;
  json_dumps := fun _ v => Some v;
  json_loads := fun t =>
    match t with
    | Some v => inr v
    | None => inl "Expecting value: line 1 column 1 (char 0)"
    end;
  with_suffix := model_with_suffix
|}.

Definition empty_world `{PyLib} : World :=
  {| files := ∅; databases := ∅ |}.

(* ===================================================================== *)
(** ** Calls on a machine, and the machines they lead to *)
(* ===================================================================== *)

Inductive Call : Type :=
  | CallBrew (recipe_key : string)
  | CallFillWater (amount_ml : Z)
  | CallFillCoffee (amount_g : Z)
  | CallStatus.

(** The machine a call leaves behind, whether it returned or raised. *)
Definition perform (c : Call) (m : CoffeeMachine.t) : CoffeeMachine.t :=
  match c with
  | CallBrew recipe_key => state_of (CoffeeMachine.brew recipe_key m)
  | CallFillWater amount_ml => state_of (CoffeeMachine.fill_water amount_ml m)
  | CallFillCoffee amount_g => state_of (CoffeeMachine.fill_coffee amount_g m)
  | CallStatus => state_of (CoffeeMachine.status m)
  end.

Inductive reachable (W C : Z) : CoffeeMachine.t -> Prop :=
  | reach_default : reachable W C (default_machine W C)
  | reach_call m c : reachable W C m -> reachable W C (perform c m).

Definition in_bounds (c : Container.t) : Prop :=
  0 <= Container.level c <= Container.capacity c.

(** The recipe table as the specification lists it. *)
Definition listed_recipes : list (string * Recipe) :=
  [ ("espresso", {| water_ml := 24; coffee_g := 8 |});
    ("double_espresso", {| water_ml := 48; coffee_g := 16 |});
    ("americano", {| water_ml := 148; coffee_g := 16 |});
    ("ristretto", {| water_ml := 16; coffee_g := 8 |}) ].

(** The exception a call raises, if any. *)
Definition error_of {S A} (r : S * (exn + A)) : option exn :=
  match snd r with
  | inl e => Some e
  | inr _ => None
  end.

Definition raised (c : Call) (m : CoffeeMachine.t) : option exn :=
  match c with
  | CallBrew recipe_key => error_of (CoffeeMachine.brew recipe_key m)
  | CallFillWater amount_ml => error_of (CoffeeMachine.fill_water amount_ml m)
  | CallFillCoffee amount_g => error_of (CoffeeMachine.fill_coffee amount_g m)
  | CallStatus => error_of (CoffeeMachine.status m)
  end.

(** ** Saving, then loading *)

(** A method called on the object [s]; the caller gets the object back
    next to the result. *)
Definition with_object `{PyLib} {S A} (s : S) (c : Py (S * World) A)
    : Py World (S * A) :=
  fun w =>
    match c (s, w) with
    | ((s', w'), inr a) => (w', inr (s', a))
    | ((_, w'), inl e) => (w', inl e)
    end.

(** [save(data)] on one instance, [load()] on a second instance built
    for the same backend and path. *)
Definition save_then_fresh_load `{PyLib} (backend path : string)
    (data : json) : Py World (option json) :=
  first ← build_storage backend path;
  with_object first (save data);;
  second ← build_storage backend path;
  '(_, loaded) ← with_object second load;
  mret loaded.

(** [save(data)] and [load()] on the same instance. *)
Definition save_then_load `{PyLib} (backend path : string)
    (data : json) : Py World (option json) :=
  first ← build_storage backend path;
  '(first, _) ← with_object first (save data);
  '(_, loaded) ← with_object first load;
  mret loaded.

(** A service brews once; a second service is then built on a new
    storage object for the same backend and path, and asked its status. *)
Definition brew_then_restart `{PyLib} (settings : Settings)
    (recipe_key : string) : Py World json :=
  storage ← build_storage (storage_backend settings) (storage_path settings);
  service ← CoffeeMachineService.init storage settings;
  with_object service (CoffeeMachineService.brew recipe_key);;
  storage ← build_storage (storage_backend settings) (storage_path settings);
  loaded ← CoffeeMachineService.init storage settings;
  '(_, status) ← with_object loaded CoffeeMachineService.status;
  mret status.

(** The world after [JSONStateStorage.save]: the temporary document has
    been written and moved over the target. *)
Definition json_saved `{PyLib} (path : string) (data : json) (w : World)
    : World :=
  set_files
    (<[path := json_dumps (Some 2%nat) data]>
       (delete (with_suffix path ".tmp")
          (<[with_suffix path ".tmp" := json_dumps (Some 2%nat) data]>
             (files w))))
    w.

(** The world after [SQLiteStateStorage._init_db]. *)
Definition sqlite_initialised `{PyLib} (path : string) (w : World) : World :=
  match databases w !! path with
  | Some _ => w
  | None => set_databases (<[path := None]> (databases w)) w
  end.

Definition machine_in_bounds (m : CoffeeMachine.t) : Prop :=
  in_bounds (CoffeeMachine.water_container m)
  /\ in_bounds (CoffeeMachine.coffee_container m).

(** A service to run the examples on. *)
Definition sample_settings : Settings :=
  {| water_capacity_ml := 200; coffee_capacity_g := 100;
     storage_path := "data/state.json"; storage_backend := "memory" |}.

Definition sample_service : CoffeeMachineService.t :=
  CoffeeMachineService.mk (Memory MemoryStateStorage.init) sample_settings
                          (default_machine 200 100).

(** A world whose state file holds a text that is not JSON. *)
Definition corrupt_world : @World model_lib :=
  {| files := {[ "data/state.json" := None ]}; databases := ∅ |}.

(** The round trip as the specification words it: on each of the three
    backends, a snapshot saved through one instance is what a fresh
    instance for the same path loads. *)
Definition round_trip_on_every_backend : Prop :=
  forall (L : PyLib), PyLibSpec L ->
  forall (backend path : string) (m : CoffeeMachine.t) (w : World),
    backend ∈ ["json"; "sqlite"; "memory"] ->
    outcome (save_then_fresh_load backend path (CoffeeMachine.to_dict m) w)
    = inr (Some (CoffeeMachine.to_dict m)).

(* ===================================================================== *)
(** ** schemas.py: the constraints of the request and response models *)
(* ===================================================================== *)

(** Each model is the test its fields put on a document whose values
    already have the declared types; pydantic's conversions of values of
    other types are outside this embedding, and such documents are
    rejected here. *)
Module Schemas.

Definition PositiveInt (n : Z) : bool := 0 <? n.

(** [Literal[...]]: the string is one of the listed ones. *)
Definition Literal (allowed : list string) (s : string) : bool :=
  existsb (String.eqb s) allowed.

Definition ContainerStatus (data : json) : bool :=
  match subscript data "name", subscript data "capacity",
        subscript data "level", subscript data "unit" with
  | inr (JStr name), inr (JInt capacity), inr (JInt level), inr (JStr unit) =>
      Literal ["water"; "coffee"] name
      && PositiveInt capacity
      && (0 <=? level)
      && Literal ["ml"; "g"] unit
  | _, _, _, _ => false
  end.

(** [last_message: Optional[str] = None]. *)
Definition optional_str (data : json) (key : string) : bool :=
  match dict_get data key with
  | inr JNull | inr (JStr _) => true
  | _ => false
  end.

Definition required_str (data : json) (key : string) : bool :=
  match subscript data key with
  | inr (JStr _) => true
  | _ => false
  end.

Definition MachineStatus (data : json) : bool :=
  match subscript data "water", subscript data "coffee" with
  | inr water, inr coffee =>
      ContainerStatus water && ContainerStatus coffee
      && optional_str data "last_message"
  | _, _ => false
  end.

Definition BrewUsage (data : json) : bool :=
  match subscript data "water_ml", subscript data "coffee_g" with
  | inr (JInt water_ml), inr (JInt coffee_g) =>
      PositiveInt water_ml && PositiveInt coffee_g
  | _, _ => false
  end.

Definition BrewResponse (data : json) : bool :=
  match subscript data "used", subscript data "status" with
  | inr used, inr status =>
      required_str data "message" && required_str data "drink"
      && BrewUsage used && MachineStatus status
  | _, _ => false
  end.

Definition FillResponse (data : json) : bool :=
  match subscript data "status" with
  | inr status => required_str data "message" && MachineStatus status
  | _ => false
  end.

Definition StatusResponse (data : json) : bool :=
  match subscript data "status" with
  | inr status => MachineStatus status
  | _ => false
  end.

Definition FillWaterRequest (amount_ml : Z) : bool := PositiveInt amount_ml.

Definition FillCoffeeRequest (amount_g : Z) : bool := PositiveInt amount_g.

End Schemas.

(** The text of pydantic's [ValidationError] for a model and the input it
    refused is library text. *)
Class Pydantic : Type := {
  validation_error_str : string -> json -> string
}.

Definition value_of {A} (r : exn + A) : option A :=
  match r with
  | inr a => Some a
  | inl _ => None
  end.

(** Building a model from a document and sending it: [None] when the
    model refuses the document, otherwise the model's fields in the order
    of their declaration, fields the model does not declare being
    dropped. *)
Module Models.

Definition ContainerStatus (data : json) : option json :=
  if Schemas.ContainerStatus data then
    name ← value_of (subscript data "name");
    capacity ← value_of (subscript data "capacity");
    level ← value_of (subscript data "level");
    unit ← value_of (subscript data "unit");
    Some (JDict [ ("name", name); ("capacity", capacity);
                  ("level", level); ("unit", unit) ])
  else None.

Definition MachineStatus (data : json) : option json :=
  if Schemas.MachineStatus data then
    water ← value_of (subscript data "water") ≫= ContainerStatus;
    coffee ← value_of (subscript data "coffee") ≫= ContainerStatus;
    last_message ← value_of (dict_get data "last_message");
    Some (JDict [ ("water", water); ("coffee", coffee);
                  ("last_message", last_message) ])
  else None.

Definition BrewUsage (data : json) : option json :=
  if Schemas.BrewUsage data then
    water_ml ← value_of (subscript data "water_ml");
    coffee_g ← value_of (subscript data "coffee_g");
    Some (JDict [ ("water_ml", water_ml); ("coffee_g", coffee_g) ])
  else None.

(** [BrewResponse], from the entries of [data] as keyword arguments. *)
Definition BrewResponse (data : json) : option json :=
  if Schemas.BrewResponse data then
    message ← value_of (subscript data "message");
    drink ← value_of (subscript data "drink");
    used ← value_of (subscript data "used") ≫= BrewUsage;
    status ← value_of (subscript data "status") ≫= MachineStatus;
    Some (JDict [ ("message", message); ("drink", drink);
                  ("used", used); ("status", status) ])
  else None.

(** [FillResponse], from the entries of [data] as keyword arguments. *)
Definition FillResponse (data : json) : option json :=
  if Schemas.FillResponse data then
    message ← value_of (subscript data "message");
    status ← value_of (subscript data "status") ≫= MachineStatus;
    Some (JDict [ ("message", message); ("status", status) ])
  else None.

(** [StatusResponse(status=status)]. *)
Definition StatusResponse (status : json) : option json :=
  status ← MachineStatus status;
  Some (JDict [ ("status", status) ]).

End Models.

(** The construction of a response model inside an endpoint function. *)
Definition construct `{Pydantic} {S} (model : string)
    (build : json -> option json) (data : json) : Py S json :=
  match build data with
  | Some sent => mret sent
  | None => raise (ValidationError (validation_error_str model data))
  end.

(** A stand-in for the library's text, to run the routes on. *)
Definition model_pydantic : Pydantic := {|
  validation_error_str := fun model _ => "1 validation error for " ++ model
|}.

(* ===================================================================== *)
(** ** main.py: the status and fill routes *)
(* ===================================================================== *)

Module Api.

(** [StatusResponse(status=await service.status())]. *)
Definition status_body `{PyLib} `{Pydantic}
    : Py (CoffeeMachineService.t * World) json :=
  status ← CoffeeMachineService.status;
  construct "StatusResponse" Models.StatusResponse status.

Definition root_status `{PyLib} `{Pydantic} := route status_body.

Definition status_endpoint `{PyLib} `{Pydantic} := route status_body.

(** [BrewResponse] built from [await service.brew(recipe_key)]. *)
Definition brew_body `{PyLib} `{Pydantic} (recipe_key : string)
    : Py (CoffeeMachineService.t * World) json :=
  answer ← CoffeeMachineService.brew recipe_key;
  construct "BrewResponse" Models.BrewResponse answer.

Definition brew_espresso `{PyLib} `{Pydantic} :=
  route (brew_body "espresso").

Definition brew_double_espresso `{PyLib} `{Pydantic} :=
  route (brew_body "double_espresso").

Definition brew_americano `{PyLib} `{Pydantic} :=
  route (brew_body "americano").

Definition brew_ristretto `{PyLib} `{Pydantic} :=
  route (brew_body "ristretto").

(** [FillResponse] built from [await service.fill_water(amount_ml)]
    (and likewise for coffee). *)
Definition fill_water_body `{PyLib} `{Pydantic} (amount_ml : Z)
    : Py (CoffeeMachineService.t * World) json :=
  answer ← CoffeeMachineService.fill_water amount_ml;
  construct "FillResponse" Models.FillResponse answer.

Definition fill_coffee_body `{PyLib} `{Pydantic} (amount_g : Z)
    : Py (CoffeeMachineService.t * World) json :=
  answer ← CoffeeMachineService.fill_coffee amount_g;
  construct "FillResponse" Models.FillResponse answer.

(** A request body that fails its model never reaches the function:
    [None] is the framework's own rejection of the request. *)
Definition fill_water `{PyLib} `{Pydantic} (amount_ml : Z)
    : CoffeeMachineService.t * World ->
      option ((CoffeeMachineService.t * World) * JSONResponse) :=
  fun sw =>
    if Schemas.FillWaterRequest amount_ml then
      Some (route (fill_water_body amount_ml) sw)
    else None.

Definition fill_coffee `{PyLib} `{Pydantic} (amount_g : Z)
    : CoffeeMachineService.t * World ->
      option ((CoffeeMachineService.t * World) * JSONResponse) :=
  fun sw =>
    if Schemas.FillCoffeeRequest amount_g then
      Some (route (fill_coffee_body amount_g) sw)
    else None.

End Api.

(* ===================================================================== *)
(** ** Calls on a service *)
(* ===================================================================== *)

(** The method of the service that carries out a call. *)
Definition serve `{PyLib} (c : Call)
    : Py (CoffeeMachineService.t * World) json :=
  match c with
  | CallBrew recipe_key => CoffeeMachineService.brew recipe_key
  | CallFillWater amount_ml => CoffeeMachineService.fill_water amount_ml
  | CallFillCoffee amount_g => CoffeeMachineService.fill_coffee amount_g
  | CallStatus => CoffeeMachineService.status
  end.

(** The endpoint function of a call: the method of the service, then the
    response model of the route. *)
Definition endpoint `{PyLib} `{Pydantic} (c : Call)
    : Py (CoffeeMachineService.t * World) json :=
  match c with
  | CallBrew recipe_key => Api.brew_body recipe_key
  | CallFillWater amount_ml => Api.fill_water_body amount_ml
  | CallFillCoffee amount_g => Api.fill_coffee_body amount_g
  | CallStatus => Api.status_body
  end.

(** What the endpoint function of a call sends for the answer of the
    service. *)
Definition sent_for (c : Call) (answer : json) : option json :=
  match c with
  | CallBrew _ => Models.BrewResponse answer
  | CallFillWater _ | CallFillCoffee _ => Models.FillResponse answer
  | CallStatus => Models.StatusResponse answer
  end.

(** main.py at import, given the settings: the storage and the service
    are built before the application and its handlers exist. *)
Definition startup `{PyLib} (settings : Settings)
    : Py World CoffeeMachineService.t :=
  storage ← build_storage (storage_backend settings) (storage_path settings);
  CoffeeMachineService.init storage settings.

(** A new service object built on the storage object and the settings of
    an existing one, as after a restart of the process. *)
Definition restart `{PyLib} (svc : CoffeeMachineService.t)
    : Py World CoffeeMachineService.t :=
  CoffeeMachineService.init (CoffeeMachineService._storage svc)
                            (CoffeeMachineService._settings svc).

(** Two saves through one storage object, then a load. *)
Definition save_twice_then_load `{PyLib} (first second : json)
    : Py (StateStorage * World) (option json) :=
  save first;; save second;; load.

(** What [default_machine] fixes for good. *)
Definition labelled (W C : Z) (m : CoffeeMachine.t) : Prop :=
  Container.name (CoffeeMachine.water_container m) = "water"
  /\ Container.capacity (CoffeeMachine.water_container m) = W
  /\ Container.unit (CoffeeMachine.water_container m) = "ml"
  /\ Container.name (CoffeeMachine.coffee_container m) = "coffee"
  /\ Container.capacity (CoffeeMachine.coffee_container m) = C
  /\ Container.unit (CoffeeMachine.coffee_container m) = "g".

(** Characters of ASCII, on which [title] is [str.title]. *)
Definition is_ascii (s : string) : Prop :=
  Forall (fun c => (nat_of_ascii c < 128)%nat) (list_ascii_of_string s).

(** What [brew], [fill_water] and [fill_coffee] of the service answer
    once the machine and the storage have both returned. *)
Definition answer (c : Call) (usage : json) (m : CoffeeMachine.t) : json :=
  match c with
  | CallBrew recipe_key =>
      JDict [ ("message", CoffeeMachine.json_of_message (CoffeeMachine.last_message m));
              ("drink", JStr recipe_key);
              ("used", usage);
              ("status", CoffeeMachine.to_dict m) ]
  | CallFillWater _ | CallFillCoffee _ =>
      JDict [ ("message", CoffeeMachine.json_of_message (CoffeeMachine.last_message m));
              ("status", CoffeeMachine.to_dict m) ]
  | CallStatus => CoffeeMachine.to_dict m
  end.

(** What the machine returned, as the service passes it on. *)
Definition usage_of (c : Call) (m : CoffeeMachine.t) : json :=
  match c with
  | CallBrew recipe_key =>
      match outcome (CoffeeMachine.brew recipe_key m) with
      | inr recipe => json_of_recipe recipe
      | inl _ => JNull
      end
  | _ => JNull
  end.

(** What a route sends for a container, a machine and an answer of the
    service once the response model accepted them: the same values, the
    keys in the order of the model's fields. *)
Definition sent_container (c : Container.t) : json :=
  JDict [ ("name", JStr (Container.name c));
          ("capacity", JInt (Container.capacity c));
          ("level", JInt (Container.level c));
          ("unit", JStr (Container.unit c)) ].

Definition sent_status (m : CoffeeMachine.t) : json :=
  JDict [ ("water", sent_container (CoffeeMachine.water_container m));
          ("coffee", sent_container (CoffeeMachine.coffee_container m));
          ("last_message",
           CoffeeMachine.json_of_message (CoffeeMachine.last_message m)) ].

Definition sent_answer (c : Call) (usage : json) (m : CoffeeMachine.t)
    : json :=
  match c with
  | CallBrew recipe_key =>
      JDict [ ("message",
               CoffeeMachine.json_of_message (CoffeeMachine.last_message m));
              ("drink", JStr recipe_key);
              ("used", usage);
              ("status", sent_status m) ]
  | CallFillWater _ | CallFillCoffee _ =>
      JDict [ ("message",
               CoffeeMachine.json_of_message (CoffeeMachine.last_message m));
              ("status", sent_status m) ]
  | CallStatus => JDict [ ("status", sent_status m) ]
  end.

(** The storage error as the specification words it: whatever the JSON
    backend raises on loading is of a class apart from the class of every
    error a call on the machine raises, and is answered differently. *)
Definition storage_error_set_apart : Prop :=
  forall (L : PyLib) (s : JSONStateStorage.t) (w : World)
         (storage_error : exn)
         (c : Call) (m : CoffeeMachine.t) (domain_error : exn),
    outcome (JSONStateStorage.load s w) = inl storage_error ->
    raised c m = Some domain_error ->
    isinstance storage_error (type_of domain_error) = false
    /\ status_code (exception_handler storage_error)
       <> status_code (exception_handler domain_error).

(** Settings that select the JSON backend. *)
Definition json_settings : Settings :=
  {| water_capacity_ml := 200; coffee_capacity_g := 100;
     storage_path := "data/state.json"; storage_backend := "json" |}.

(* ===================================================================== *)
(** * Properties *)
(* ===================================================================== *)

(** ** Container *)

Lemma use_unfold (amount : Z) (self : Container.t) :
  Container.use amount self =
  if Container.level self <? amount then
    (self, inl (ContainerEmptyError (Container.name self) amount
                                    (Container.level self)))
  else
    (Container.set_level (Container.level self - amount) self, inr tt).
Proof.
  unfold Container.use, mbind, Py_bind, get.
  destruct (Container.level self <? amount); reflexivity.
Qed.

Lemma fill_unfold (amount : Z) (self : Container.t) :
  Container.fill amount self =
  if amount <=? 0 then
    (self, inl (InvalidFillAmountError (Container.name self) amount))
  else if Container.capacity self - Container.level self <? amount then
    (self, inl (ContainerOverflowError (Container.name self) amount
                  (Container.capacity self - Container.level self)))
  else
    (Container.set_level (Container.level self + amount) self, inr tt).
Proof.
  unfold Container.fill, mbind, Py_bind, get.
  destruct (amount <=? 0); [reflexivity|].
  destruct (_ <? amount); reflexivity.
Qed.

Ltac by_guard :=
  repeat match goal with
  | |- context [ ?a <? ?b ] => destruct (Z.ltb_spec a b); try lia
  | |- context [ ?a <=? ?b ] => destruct (Z.leb_spec a b); try lia
  end.

(** C6. [use(amount)] with [amount > level] raises [ContainerEmptyError]
    carrying the container's name, the requested amount and the level
    before the call, and leaves the container as it was; with
    [amount <= level] it returns and the level has dropped by exactly
    [amount], the other fields being untouched. *)
Theorem use_checks_then_debits (c : Container.t) (amount : Z) :
  (amount > Container.level c ->
     Container.use amount c =
     (c, inl (ContainerEmptyError (Container.name c) amount
                                  (Container.level c))))
  /\ (amount <= Container.level c ->
        Container.use amount c =
        (Container.mk (Container.name c) (Container.capacity c)
                      (Container.level c - amount) (Container.unit c),
         inr tt)).
Proof.
  rewrite use_unfold. split; intros H; by_guard; reflexivity.
Qed.

Lemma use_checks_then_debits_witness :
  Container.use 24 (Container.mk "water" 200 10 "ml")
  = (Container.mk "water" 200 10 "ml",
     inl (ContainerEmptyError "water" 24 10))
  /\ Container.use 24 (Container.mk "water" 200 200 "ml")
     = (Container.mk "water" 200 176 "ml", inr tt).
Proof.
  split.
  - apply (proj1 (use_checks_then_debits
                    (Container.mk "water" 200 10 "ml") 24)).
    simpl. lia.
  - apply (proj2 (use_checks_then_debits
                    (Container.mk "water" 200 200 "ml") 24)).
    simpl. lia.
Defined.

(** C5. [fill(amount)] raises [InvalidFillAmountError] when
    [amount <= 0]; for a positive amount, and for any amount when the
    level does not exceed the capacity, it raises
    [ContainerOverflowError] when [amount > capacity - level], the error
    carrying the attempted amount and [free_capacity = capacity - level];
    both failures leave the container as it was; otherwise the level grows
    by exactly [amount]. *)
Theorem fill_validates_then_credits (c : Container.t) (amount : Z) :
  (amount <= 0 ->
     Container.fill amount c =
     (c, inl (InvalidFillAmountError (Container.name c) amount)))
  /\ (0 < amount \/ Container.level c <= Container.capacity c ->
      amount > Container.capacity c - Container.level c ->
        Container.fill amount c =
        (c, inl (ContainerOverflowError (Container.name c) amount
                   (Container.capacity c - Container.level c))))
  /\ (0 < amount -> amount <= Container.capacity c - Container.level c ->
        Container.fill amount c =
        (Container.mk (Container.name c) (Container.capacity c)
                      (Container.level c + amount) (Container.unit c),
         inr tt)).
Proof.
  rewrite fill_unfold. repeat split; intros; by_guard; reflexivity.
Qed.

Lemma fill_validates_then_credits_witness :
  Container.fill 0 (Container.mk "coffee" 100 100 "g")
  = (Container.mk "coffee" 100 100 "g",
     inl (InvalidFillAmountError "coffee" 0))
  /\ Container.fill 20 (Container.mk "water" 200 190 "ml")
     = (Container.mk "water" 200 190 "ml",
        inl (ContainerOverflowError "water" 20 10))
  /\ Container.fill 10 (Container.mk "water" 200 190 "ml")
     = (Container.mk "water" 200 200 "ml", inr tt).
Proof.
  split; [|split].
  - apply (proj1 (fill_validates_then_credits
                    (Container.mk "coffee" 100 100 "g") 0)).
    lia.
  - apply (proj1 (proj2 (fill_validates_then_credits
                           (Container.mk "water" 200 190 "ml") 20)));
      simpl; lia.
  - apply (proj2 (proj2 (fill_validates_then_credits
                           (Container.mk "water" 200 190 "ml") 10)));
      simpl; lia.
Defined.

(** C10. [use] has no check that its argument is positive: on a container
    with [level >= 0], [use(amount)] with [amount <= 0] returns and sets
    the level to [level - amount]; the level never drops, rises strictly
    for a negative amount, and ends strictly above the capacity as soon as
    [-amount] exceeds the free space. *)
Theorem use_accepts_non_positive (c : Container.t) (amount : Z) :
  0 <= Container.level c ->
  amount <= 0 ->
  Container.use amount c =
    (Container.mk (Container.name c) (Container.capacity c)
                  (Container.level c - amount) (Container.unit c), inr tt)
  /\ Container.level c <= Container.level (state_of (Container.use amount c))
  /\ (amount < 0 ->
        Container.level c < Container.level (state_of (Container.use amount c)))
  /\ (Container.capacity c - Container.level c < - amount ->
        Container.capacity c
        < Container.level (state_of (Container.use amount c))).
Proof.
  intros Hl Ha. rewrite use_unfold.
  destruct (Z.ltb_spec (Container.level c) amount); [lia|].
  simpl. repeat split; intros; lia.
Qed.

Lemma use_accepts_non_positive_witness :
  Container.use (-1) (Container.mk "water" 200 200 "ml")
  = (Container.mk "water" 200 201 "ml", inr tt)
  /\ 200 < Container.level
             (state_of (Container.use (-1) (Container.mk "water" 200 200 "ml"))).
Proof.
  assert (H0 : 0 <= Container.level (Container.mk "water" 200 200 "ml"))
    by (simpl; lia).
  assert (H1 : -1 <= 0) by lia.
  destruct (use_accepts_non_positive _ (-1) H0 H1) as (E & _ & _ & Hover).
  split; [exact E|]. apply Hover. simpl. lia.
Defined.

(** ** Machine *)

Import CoffeeMachine.

Lemma recipes_listed (key : string) (r : Recipe) :
  RECIPES !! key = Some r <-> (key, r) ∈ listed_recipes.
Proof.
  unfold RECIPES, listed_recipes.
  rewrite !lookup_insert_Some, lookup_empty, !elem_of_cons, elem_of_nil.
  split.
  - intros [[<- <-]|[? [[<- <-]|[? [[<- <-]|[? [[<- <-]|[? ?]]]]]]]];
      try discriminate; auto 10.
  - intros [E|[E|[E|[E|[]]]]]; inversion E; subst; clear E.
    + right. split; [discriminate|]. right. split; [discriminate|].
      right. split; [discriminate|]. left. done.
    + right. split; [discriminate|]. right. split; [discriminate|].
      left. done.
    + right. split; [discriminate|]. left. done.
    + left. done.
Qed.

Lemma recipes_positive (key : string) (r : Recipe) :
  RECIPES !! key = Some r -> 0 < water_ml r /\ 0 < coffee_g r.
Proof.
  rewrite recipes_listed. unfold listed_recipes.
  rewrite !elem_of_cons, elem_of_nil.
  intros [E|[E|[E|[E|[]]]]]; inversion E; simpl; lia.
Qed.

(** The three ways a brew of a known recipe can end. *)
Lemma brew_unfold (key : string) (r : Recipe) (m : CoffeeMachine.t) :
  RECIPES !! key = Some r ->
  brew key m =
  let w := water_container m in
  let c := coffee_container m in
  if Container.level w <? water_ml r then
    (m, inl (ContainerEmptyError (Container.name w) (water_ml r)
                                 (Container.level w)))
  else if Container.level c <? coffee_g r then
    (mk (Container.set_level (Container.level w - water_ml r) w) c
        (last_message m),
     inl (ContainerEmptyError (Container.name c) (coffee_g r)
                              (Container.level c)))
  else
    (mk (Container.set_level (Container.level w - water_ml r) w)
        (Container.set_level (Container.level c - coffee_g r) c)
        (Some (_friendly_name key ++ " is ready!")),
     inr r).
Proof.
  intros Hr. unfold brew. rewrite Hr.
  unfold mbind, Py_bind, on_water, on_coffee, on_field, mret, Py_ret, modify.
  rewrite use_unfold. destruct m as [w c msg]. simpl.
  destruct (Container.level w <? water_ml r); [reflexivity|].
  rewrite use_unfold. simpl.
  destruct (Container.level c <? coffee_g r); reflexivity.
Qed.

Lemma brew_unknown (key : string) (m : CoffeeMachine.t) :
  RECIPES !! key = None ->
  brew key m = (m, inl (ValueError ("Unknown recipe '" ++ key ++ "'"))).
Proof. intros Hr. unfold brew. rewrite Hr. reflexivity. Qed.

Lemma fill_water_unfold (amount_ml : Z) (m : CoffeeMachine.t) :
  fill_water amount_ml m =
  match Container.fill amount_ml (water_container m) with
  | (_, inl e) => (m, inl e)
  | (w', inr _) =>
      (mk w' (coffee_container m)
          (Some ("Added " ++ str_int amount_ml ++ " ml of water.")), inr tt)
  end.
Proof.
  unfold fill_water, mbind, Py_bind, on_water, on_field, modify.
  rewrite fill_unfold. destruct m as [w c msg]. simpl.
  destruct (amount_ml <=? 0); [reflexivity|].
  destruct (_ <? amount_ml); reflexivity.
Qed.

Lemma fill_coffee_unfold (amount_g : Z) (m : CoffeeMachine.t) :
  fill_coffee amount_g m =
  match Container.fill amount_g (coffee_container m) with
  | (_, inl e) => (m, inl e)
  | (c', inr _) =>
      (mk (water_container m) c'
          (Some ("Added " ++ str_int amount_g ++ " g of coffee.")), inr tt)
  end.
Proof.
  unfold fill_coffee, mbind, Py_bind, on_coffee, on_field, modify.
  rewrite fill_unfold. destruct m as [w c msg]. simpl.
  destruct (amount_g <=? 0); [reflexivity|].
  destruct (_ <? amount_g); reflexivity.
Qed.

Lemma status_unfold (m : CoffeeMachine.t) :
  status m = (m, inr (to_dict m)).
Proof. reflexivity. Qed.

(** C2. For every recipe of the listed table and every machine holding at
    least the recipe's water and coffee, [brew] returns the recipe's two
    amounts, lowers the water level by exactly [water_ml] and the coffee
    level by exactly [coffee_g], and changes no other container field;
    [default_machine] starts both containers at their capacity; and
    [default_machine(200, 100).brew("espresso")] returns 24 / 8 and leaves
    the levels 176 and 92. *)
Theorem brew_debits_exactly :
  (forall (key : string) (r : Recipe) (m : CoffeeMachine.t),
      (key, r) ∈ listed_recipes ->
      water_ml r <= Container.level (water_container m) ->
      coffee_g r <= Container.level (coffee_container m) ->
      brew key m =
      (mk (Container.mk (Container.name (water_container m))
                        (Container.capacity (water_container m))
                        (Container.level (water_container m) - water_ml r)
                        (Container.unit (water_container m)))
          (Container.mk (Container.name (coffee_container m))
                        (Container.capacity (coffee_container m))
                        (Container.level (coffee_container m) - coffee_g r)
                        (Container.unit (coffee_container m)))
          (Some (_friendly_name key ++ " is ready!")),
       inr r))
  /\ (forall W C : Z,
        default_machine W C =
        mk (Container.mk "water" W W "ml") (Container.mk "coffee" C C "g")
           None)
  /\ brew "espresso" (default_machine 200 100) =
     (mk (Container.mk "water" 200 176 "ml")
         (Container.mk "coffee" 100 92 "g")
         (Some "Espresso is ready!"),
      inr {| water_ml := 24; coffee_g := 8 |}).
Proof.
  split; [|split].
  - intros key r m Hin Hw Hc.
    apply recipes_listed in Hin. rewrite (brew_unfold key r m Hin).
    cbv zeta. by_guard. reflexivity.
  - reflexivity.
  - vm_compute. reflexivity.
Qed.

Lemma brew_debits_exactly_witness :
  brew "ristretto" (default_machine 200 100) =
  (mk (Container.mk "water" 200 184 "ml")
      (Container.mk "coffee" 100 92 "g")
      (Some "Ristretto is ready!"),
   inr {| water_ml := 16; coffee_g := 8 |}).
Proof.
  apply (proj1 brew_debits_exactly "ristretto"
           {| water_ml := 16; coffee_g := 8 |} (default_machine 200 100)).
  - unfold listed_recipes. do 3 apply list_elem_of_further.
    apply list_elem_of_here.
  - simpl. lia.
  - simpl. lia.
Defined.

(** When the water suffices and the coffee does not, the water has been
    debited by the time the coffee check raises. *)
Lemma brew_coffee_shortage (key : string) (r : Recipe) (m : CoffeeMachine.t) :
  RECIPES !! key = Some r ->
  water_ml r <= Container.level (water_container m) ->
  Container.level (coffee_container m) < coffee_g r ->
  outcome (brew key m) =
    inl (ContainerEmptyError (Container.name (coffee_container m))
           (coffee_g r) (Container.level (coffee_container m)))
  /\ Container.level (water_container (state_of (brew key m))) =
     Container.level (water_container m) - water_ml r
  /\ coffee_container (state_of (brew key m)) = coffee_container m
  /\ last_message (state_of (brew key m)) = last_message m.
Proof.
  intros Hr Hw Hc. rewrite (brew_unfold key r m Hr). cbv zeta.
  by_guard. simpl. auto.
Qed.

(** C1. On [default_machine(200, 10)], [brew("double_espresso")] has
    enough water (48 of 200) and too little coffee (16 wanted, 10 there):
    it raises [ContainerEmptyError] for the coffee container, and the
    water level it leaves is 152, not 200. *)
Theorem brew_coffee_shortage_debits_water :
  brew "double_espresso" (default_machine 200 10) =
  (mk (Container.mk "water" 200 152 "ml")
      (Container.mk "coffee" 10 10 "g")
      None,
   inl (ContainerEmptyError "coffee" 16 10)).
Proof. vm_compute. reflexivity. Qed.

(** ** Reachable machines *)

Lemma use_in_bounds (amount : Z) (c : Container.t) :
  0 <= amount -> in_bounds c ->
  in_bounds (state_of (Container.use amount c)).
Proof.
  unfold in_bounds. intros Ha Hb. rewrite use_unfold.
  destruct (Z.ltb_spec (Container.level c) amount); simpl; lia.
Qed.

Lemma fill_in_bounds (amount : Z) (c : Container.t) :
  in_bounds c -> in_bounds (state_of (Container.fill amount c)).
Proof.
  unfold in_bounds. intros Hb. rewrite fill_unfold.
  destruct (Z.leb_spec amount 0); [simpl; lia|].
  destruct (Z.ltb_spec (Container.capacity c - Container.level c) amount);
    simpl; lia.
Qed.

Lemma perform_in_bounds (c : Call) (m : CoffeeMachine.t) :
  machine_in_bounds m -> machine_in_bounds (perform c m).
Proof.
  intros [Hw Hc]. destruct c as [key|amount|amount|]; simpl.
  - destruct (RECIPES !! key) as [r|] eqn:Hr.
    + destruct (recipes_positive key r Hr) as [Pw Pc].
      rewrite (brew_unfold key r m Hr). cbv zeta.
      pose proof (use_in_bounds (water_ml r) (water_container m)
                    ltac:(lia) Hw) as Uw.
      pose proof (use_in_bounds (coffee_g r) (coffee_container m)
                    ltac:(lia) Hc) as Uc.
      rewrite use_unfold in Uw, Uc.
      destruct (Container.level (water_container m) <? water_ml r);
        [split; assumption|].
      destruct (Container.level (coffee_container m) <? coffee_g r);
        split; simpl; assumption.
    + rewrite (brew_unknown key m Hr). split; assumption.
  - rewrite fill_water_unfold.
    pose proof (fill_in_bounds amount (water_container m) Hw) as F.
    destruct (Container.fill amount (water_container m)) as [w' [e|[]]];
      split; simpl; assumption.
  - rewrite fill_coffee_unfold.
    pose proof (fill_in_bounds amount (coffee_container m) Hc) as F.
    destruct (Container.fill amount (coffee_container m)) as [c' [e|[]]];
      split; simpl; assumption.
  - split; assumption.
Qed.

(** C4. Every machine reached from [default_machine(W, C)], with [W > 0]
    and [C > 0], by any sequence of [brew], [fill_water], [fill_coffee]
    and [status] calls, returning or raising, has both containers within
    [0 <= level <= capacity]. *)
Theorem reachable_in_bounds (W C : Z) (m : CoffeeMachine.t) :
  0 < W -> 0 < C ->
  reachable W C m ->
  in_bounds (water_container m) /\ in_bounds (coffee_container m).
Proof.
  intros HW HC Hreach. change (machine_in_bounds m).
  induction Hreach as [|m c _ IH].
  - split; unfold in_bounds; simpl; lia.
  - apply perform_in_bounds, IH.
Qed.

Lemma reachable_in_bounds_witness :
  let m := perform (CallFillWater 30)
             (perform (CallBrew "double_espresso")
                (perform (CallBrew "latte") (default_machine 200 10))) in
  m = mk (Container.mk "water" 200 182 "ml")
         (Container.mk "coffee" 10 10 "g")
         (Some "Added 30 ml of water.")
  /\ in_bounds (water_container m) /\ in_bounds (coffee_container m).
Proof.
  intros m. split; [vm_compute; reflexivity|].
  apply (reachable_in_bounds 200 10 m); [lia | lia |].
  unfold m. repeat apply reach_call. apply reach_default.
Defined.

(** C9. [status()] leaves the machine exactly as it was, and no call
    ([brew], [fill_water], [fill_coffee], [status]), returning or raising,
    changes the name, the capacity or the unit of either container. *)
Theorem calls_keep_container_identity (c : Call) (m : CoffeeMachine.t) :
  state_of (status m) = m
  /\ Container.name (water_container (perform c m))
     = Container.name (water_container m)
  /\ Container.capacity (water_container (perform c m))
     = Container.capacity (water_container m)
  /\ Container.unit (water_container (perform c m))
     = Container.unit (water_container m)
  /\ Container.name (coffee_container (perform c m))
     = Container.name (coffee_container m)
  /\ Container.capacity (coffee_container (perform c m))
     = Container.capacity (coffee_container m)
  /\ Container.unit (coffee_container (perform c m))
     = Container.unit (coffee_container m).
Proof.
  split; [reflexivity|].
  destruct c as [key|amount|amount|]; simpl.
  - destruct (RECIPES !! key) as [r|] eqn:Hr.
    + rewrite (brew_unfold key r m Hr). cbv zeta.
      destruct (_ <? water_ml r); [repeat split|].
      destruct (_ <? coffee_g r); repeat split.
    + rewrite (brew_unknown key m Hr). repeat split.
  - rewrite fill_water_unfold, fill_unfold.
    destruct (amount <=? 0); [repeat split|].
    destruct (_ <? amount); repeat split.
  - rewrite fill_coffee_unfold, fill_unfold.
    destruct (amount <=? 0); [repeat split|].
    destruct (_ <? amount); repeat split.
  - repeat split.
Qed.

(** ** Unknown recipes, the service and the transport layer *)

Lemma brew_value_error_only_if_unknown (key : string) (m : CoffeeMachine.t)
    (msg : string) :
  outcome (brew key m) = inl (ValueError msg) -> RECIPES !! key = None.
Proof.
  destruct (RECIPES !! key) as [r|] eqn:Hr; [|reflexivity].
  rewrite (brew_unfold key r m Hr). cbv zeta.
  destruct (_ <? water_ml r); [discriminate|].
  destruct (_ <? coffee_g r); discriminate.
Qed.

(** A brew that raises leaves the service with the machine as the failed
    call left it, saves nothing, and hands the same exception on. *)
Lemma service_brew_raises `{PyLib} (key : string)
    (svc : CoffeeMachineService.t) (w : World) (e : exn) :
  outcome (brew key (CoffeeMachineService._machine svc)) = inl e ->
  CoffeeMachineService.brew key (svc, w) =
  ((CoffeeMachineService.mk
      (CoffeeMachineService._storage svc)
      (CoffeeMachineService._settings svc)
      (state_of (brew key (CoffeeMachineService._machine svc))), w),
   inl e).
Proof.
  intros He. unfold CoffeeMachineService.brew, mbind, Py_bind,
    CoffeeMachineService.on_machine, on_field. simpl.
  destruct (brew key (CoffeeMachineService._machine svc)) as [m' r].
  simpl in He. subst r. reflexivity.
Qed.

(** C3 (as the code has it). [brew] raises a [ValueError] exactly when the
    name is absent from the recipe table; the message is
    [Unknown recipe '<name>'] and the machine is untouched.  The service
    hands the exception on unchanged and saves nothing.  A [ValueError] is
    not a [CoffeeMachineError], so the transport layer answers with the
    handler for unexpected errors: status 500 and the generic message, the
    recipe message being moved to [details]. *)
Theorem unknown_recipe_raises_value_error `{PyLib}
    (key : string) (m : CoffeeMachine.t)
    (svc : CoffeeMachineService.t) (w : World) :
  (RECIPES !! key = None <->
     exists msg, outcome (brew key m) = inl (ValueError msg))
  /\ (RECIPES !! key = None ->
        brew key m = (m, inl (ValueError ("Unknown recipe '" ++ key ++ "'"))))
  /\ (RECIPES !! key = None ->
        CoffeeMachineService.brew key (svc, w) =
        ((svc, w), inl (ValueError ("Unknown recipe '" ++ key ++ "'"))))
  /\ (RECIPES !! key = None ->
        route (CoffeeMachineService.brew key) (svc, w) =
        ((svc, w),
         {| status_code := 500;
            content := JDict [
              ("message", JStr "Unexpected error occurred");
              ("details", JStr ("Unknown recipe '" ++ key ++ "'")) ] |}))
  /\ (forall msg, is_CoffeeMachineError (ValueError msg) = false).
Proof.
  assert (Hsvc : RECIPES !! key = None ->
            CoffeeMachineService.brew key (svc, w) =
            ((svc, w), inl (ValueError ("Unknown recipe '" ++ key ++ "'")))).
  { intros Hr.
    rewrite (service_brew_raises key svc w
               (ValueError ("Unknown recipe '" ++ key ++ "'")))
      by (rewrite (brew_unknown _ _ Hr); reflexivity).
    rewrite (brew_unknown _ _ Hr). destruct svc; reflexivity. }
  split; [split|split; [|split; [|split]]].
  - intros Hr. eexists. rewrite (brew_unknown key m Hr). reflexivity.
  - intros [msg Hmsg]. exact (brew_value_error_only_if_unknown key m msg Hmsg).
  - apply brew_unknown.
  - exact Hsvc.
  - intros Hr. unfold route. rewrite (Hsvc Hr). reflexivity.
  - reflexivity.
Qed.

Lemma unknown_recipe_raises_value_error_witness :
  brew "latte" (default_machine 200 100) =
  (default_machine 200 100, inl (ValueError "Unknown recipe 'latte'"))
  /\ route (H := model_lib) (CoffeeMachineService.brew "latte")
       (sample_service, empty_world) =
     ((sample_service, empty_world),
      {| status_code := 500;
         content := JDict [
           ("message", JStr "Unexpected error occurred");
           ("details", JStr "Unknown recipe 'latte'") ] |}).
Proof.
  destruct (@unknown_recipe_raises_value_error model_lib "latte"
              (default_machine 200 100) sample_service empty_world)
    as (_ & Hm & _ & Hr & _).
  split; [apply Hm | apply Hr]; vm_compute; reflexivity.
Defined.

(** C3 as stated fails: a brew of the unknown recipe [latte], sent through
    the service and a route, is answered with status 500 and the generic
    message, not with a 400 client error, because the exception raised is
    no [CoffeeMachineError]. *)
Lemma unknown_recipe_not_a_client_error :
  let response :=
    snd (route (H := model_lib) (CoffeeMachineService.brew "latte")
           (sample_service, empty_world)) in
  RECIPES !! "latte" = None
  /\ outcome (brew "latte" (default_machine 200 100))
     = inl (ValueError "Unknown recipe 'latte'")
  /\ is_CoffeeMachineError (ValueError "Unknown recipe 'latte'") = false
  /\ status_code response = HTTP_500_INTERNAL_SERVER_ERROR
  /\ status_code response <> HTTP_400_BAD_REQUEST
  /\ dict_get (content response) "message"
     = inr (JStr "Unexpected error occurred").
Proof.
  cbv zeta. repeat split; try (vm_compute; reflexivity).
  vm_compute. discriminate.
Qed.

(** ** Persistence *)

Section Persistence.

Context `{L : PyLib}.

Lemma build_storage_json (path : string) (w : World) :
  build_storage "json" path w = (w, inr (Json (JSONStateStorage.mk path))).
Proof. reflexivity. Qed.

Lemma build_storage_sqlite (path : string) (w : World) :
  build_storage "sqlite" path w =
  (sqlite_initialised path w, inr (Sqlite (SQLiteStateStorage.mk path))).
Proof. reflexivity. Qed.

Lemma build_storage_memory (path : string) (w : World) :
  build_storage "memory" path w = (w, inr (Memory MemoryStateStorage.init)).
Proof. reflexivity. Qed.

Lemma save_json (data : json) (s : JSONStateStorage.t) (w : World) :
  save data (Json s, w) =
  ((Json s, json_saved (JSONStateStorage.path s) data w), inr tt).
Proof.
  unfold save, in_world, on_field, JSONStateStorage.save,
    JSONStateStorage.replace, modify, get, mbind, Py_bind.
  cbn [fst snd files databases set_files]. rewrite lookup_insert_eq.
  reflexivity.
Qed.

Lemma load_json_missing (s : JSONStateStorage.t) (w : World) :
  files w !! JSONStateStorage.path s = None ->
  JSONStateStorage.load s w = (w, inr None).
Proof.
  intros Hf. unfold JSONStateStorage.load, get, mbind, Py_bind.
  rewrite Hf. reflexivity.
Qed.

Lemma load_json_malformed (s : JSONStateStorage.t) (w : World)
    (doc : text) (msg : string) :
  files w !! JSONStateStorage.path s = Some doc ->
  json_loads doc = inl msg ->
  JSONStateStorage.load s w = (w, inl (JSONDecodeError msg)).
Proof.
  intros Hf Hd. unfold JSONStateStorage.load, get, mbind, Py_bind.
  rewrite Hf, Hd. reflexivity.
Qed.

Lemma load_json_present (s : JSONStateStorage.t) (w : World)
    (doc : text) (data : json) :
  files w !! JSONStateStorage.path s = Some doc ->
  json_loads doc = inr data ->
  load (Json s, w) = ((Json s, w), inr (Some data)).
Proof.
  intros Hf Hd.
  unfold load, in_world, on_field, JSONStateStorage.load, get, mbind, Py_bind.
  cbn [fst snd]. rewrite Hf, Hd. reflexivity.
Qed.

Lemma sqlite_initialised_table (path : string) (w : World) :
  is_Some (databases (sqlite_initialised path w) !! path).
Proof.
  unfold sqlite_initialised.
  destruct (databases w !! path) as [row|] eqn:Hd.
  - rewrite Hd. eauto.
  - cbn [databases set_databases]. rewrite lookup_insert_eq. eauto.
Qed.

Lemma sqlite_initialised_again (path : string) (w : World) :
  is_Some (databases w !! path) -> sqlite_initialised path w = w.
Proof.
  intros [row Hd]. unfold sqlite_initialised. rewrite Hd. reflexivity.
Qed.

Lemma save_sqlite (data : json) (s : SQLiteStateStorage.t) (w : World) :
  is_Some (databases w !! SQLiteStateStorage.path s) ->
  save data (Sqlite s, w) =
  ((Sqlite s,
    set_databases (<[SQLiteStateStorage.path s := Some (json_dumps None data)]>
                     (databases w)) w),
   inr tt).
Proof.
  intros [row Hd].
  unfold save, in_world, on_field, SQLiteStateStorage.save, modify, get,
    mbind, Py_bind.
  cbn [fst snd]. rewrite Hd. reflexivity.
Qed.

Lemma load_sqlite_present (s : SQLiteStateStorage.t) (w : World)
    (payload : text) (data : json) :
  databases w !! SQLiteStateStorage.path s = Some (Some payload) ->
  json_loads payload = inr data ->
  load (Sqlite s, w) = ((Sqlite s, w), inr (Some data)).
Proof.
  intros Hd Hp.
  unfold load, in_world, on_field, SQLiteStateStorage.load, get, mbind,
    Py_bind.
  cbn [fst snd]. rewrite Hd, Hp. reflexivity.
Qed.

Lemma save_memory (data : json) (s : MemoryStateStorage.t) (w : World) :
  json_loads (json_dumps None data) = inr data ->
  save data (Memory s, w) =
  ((Memory (MemoryStateStorage.mk (Some data)), w), inr tt).
Proof.
  intros Hd.
  unfold save, in_memory, on_field, MemoryStateStorage.save, get, mbind,
    Py_bind.
  rewrite Hd. reflexivity.
Qed.

Lemma load_memory (s : MemoryStateStorage.t) (w : World) :
  load (Memory s, w) = ((Memory s, w), inr (MemoryStateStorage._state s)).
Proof. reflexivity. Qed.

End Persistence.

Lemma to_dict_wf (m : CoffeeMachine.t) : wf_json (to_dict m) = true.
Proof. destruct m as [w c [msg|]]; reflexivity. Qed.

Lemma container_from_dict_to_dict (c : Container.t) :
  Container.from_dict (Container.to_dict c) = inr c.
Proof. destruct c. reflexivity. Qed.

Lemma from_dict_to_dict (m : CoffeeMachine.t) : from_dict (to_dict m) = inr m.
Proof. destruct m as [[] [] [msg|]]; reflexivity. Qed.

(** C7 (as the code has it). With a JSON library that decodes what it
    encodes: on the JSON and the SQLite backend, a snapshot saved through
    one storage instance is what a second instance built for the same path
    loads; on the memory backend the saving instance loads it back, and a
    second instance loads nothing.  In every case
    [CoffeeMachine.from_dict(m.to_dict())] is the machine [m] itself:
    names, capacities, levels, units and [last_message]. *)
Theorem snapshot_round_trip `{L : PyLib} (Hlib : PyLibSpec L)
    (m : CoffeeMachine.t) (path : string) (w : World) :
  outcome (save_then_fresh_load "json" path (to_dict m) w)
    = inr (Some (to_dict m))
  /\ outcome (save_then_fresh_load "sqlite" path (to_dict m) w)
     = inr (Some (to_dict m))
  /\ outcome (save_then_load "memory" path (to_dict m) w)
     = inr (Some (to_dict m))
  /\ outcome (save_then_fresh_load "memory" path (to_dict m) w) = inr None
  /\ from_dict (to_dict m) = inr m.
Proof.
  pose proof (to_dict_wf m) as Hwf.
  pose proof (fun indent => json_loads_dumps indent (to_dict m) Hwf) as Hrt.
  repeat split.
  - unfold save_then_fresh_load, mbind, Py_bind, with_object.
    rewrite build_storage_json, save_json, build_storage_json.
    rewrite (load_json_present _ _ (json_dumps (Some 2%nat) (to_dict m))
               (to_dict m)).
    + reflexivity.
    + cbn. apply lookup_insert_eq.
    + apply Hrt.
  - unfold save_then_fresh_load, mbind, Py_bind, with_object.
    rewrite build_storage_sqlite.
    rewrite save_sqlite by apply sqlite_initialised_table.
    rewrite build_storage_sqlite.
    rewrite sqlite_initialised_again
      by (cbn; rewrite lookup_insert_eq; eauto).
    rewrite (load_sqlite_present _ _ (json_dumps None (to_dict m))
               (to_dict m)).
    + reflexivity.
    + cbn. apply lookup_insert_eq.
    + apply Hrt.
  - unfold save_then_load, mbind, Py_bind, with_object.
    rewrite build_storage_memory, save_memory by apply Hrt.
    rewrite load_memory. reflexivity.
  - unfold save_then_fresh_load, mbind, Py_bind, with_object.
    rewrite build_storage_memory, save_memory by apply Hrt.
    rewrite build_storage_memory, load_memory. reflexivity.
  - apply from_dict_to_dict.
Qed.

Lemma snapshot_round_trip_witness :
  let m := state_of (brew "americano" (default_machine 200 100)) in
  outcome (save_then_fresh_load (H := model_lib) "json" "data/state.json"
             (to_dict m) empty_world)
    = inr (Some (to_dict m))
  /\ outcome (save_then_fresh_load (H := model_lib) "sqlite" "data/state.db"
                (to_dict m) empty_world)
     = inr (Some (to_dict m))
  /\ from_dict (to_dict m) = inr m.
Proof.
  intros m.
  assert (Hlib : PyLibSpec model_lib).
  { constructor. intros indent v Hwf. reflexivity. }
  destruct (snapshot_round_trip Hlib m "data/state.json" empty_world)
    as (Hjson & _ & _ & _ & Hdict).
  destruct (snapshot_round_trip Hlib m "data/state.db" empty_world)
    as (_ & Hsqlite & _).
  repeat split; assumption.
Defined.

(** C7 as stated fails on the memory backend: the snapshot saved through
    one [MemoryStateStorage] is not what a second one, built for the same
    path, loads; the second instance loads nothing. *)
Lemma round_trip_fails_on_memory :
  outcome (save_then_fresh_load (H := model_lib) "memory" "data/state.json"
             (to_dict (default_machine 200 100)) empty_world)
    = inr None
  /\ ~ round_trip_on_every_backend.
Proof.
  split; [reflexivity|].
  intros Hall.
  assert (Hlib : PyLibSpec model_lib).
  { constructor. intros indent v Hwf. reflexivity. }
  specialize (Hall model_lib Hlib "memory" "data/state.json"
                (default_machine 200 100) empty_world).
  assert (Hin : "memory" ∈ ["json"; "sqlite"; "memory"]).
  { do 2 apply list_elem_of_further. apply list_elem_of_here. }
  specialize (Hall Hin). vm_compute in Hall. discriminate.
Qed.

(** The exceptions of the machine: the three domain errors, or the
    [ValueError] of an unknown recipe. *)
Lemma raised_kinds (c : Call) (m : CoffeeMachine.t) (e : exn) :
  raised c m = Some e ->
  is_CoffeeMachineError e = true
  \/ exists key, e = ValueError ("Unknown recipe '" ++ key ++ "'").
Proof.
  destruct c as [key|amount|amount|]; unfold raised, error_of.
  - destruct (RECIPES !! key) as [r|] eqn:Hr.
    + rewrite (brew_unfold key r m Hr). cbv zeta.
      destruct (_ <? water_ml r); [intros [= <-]; left; reflexivity|].
      destruct (_ <? coffee_g r); [intros [= <-]; left; reflexivity|].
      discriminate.
    + rewrite (brew_unknown key m Hr). intros [= <-]. right. eauto.
  - rewrite fill_water_unfold, fill_unfold.
    destruct (amount <=? 0); [intros [= <-]; left; reflexivity|].
    destruct (_ <? amount); [intros [= <-]; left; reflexivity|].
    discriminate.
  - rewrite fill_coffee_unfold, fill_unfold.
    destruct (amount <=? 0); [intros [= <-]; left; reflexivity|].
    destruct (_ <? amount); [intros [= <-]; left; reflexivity|].
    discriminate.
  - discriminate.
Qed.

Lemma is_CoffeeMachineError_isinstance (e : exn) :
  is_CoffeeMachineError e = isinstance e Cls.CoffeeMachineError.
Proof. destruct e; reflexivity. Qed.

(** C8 (as the code has it). On the JSON backend, [load()] returns [None]
    when no file exists at the path, and raises [json.JSONDecodeError]
    when the file holds a text that is not a JSON document; the service is
    built when main.py is imported, so its construction, and with it the
    start of the application, fails with that exception.  The error is no
    [CoffeeMachineError]: it is of a class apart from the three domain
    errors of errors.py, which are answered with 400, and the handler for
    unexpected errors answers it with 500.  It is not apart from the
    fourth validation error: an unknown recipe raises [ValueError],
    [JSONDecodeError] is a subclass of [ValueError], and the two get the
    same answer, status 500 with the same generic message. *)
Theorem json_load_error_is_a_value_error `{L : PyLib}
    (s : JSONStateStorage.t) (w : World) (settings : Settings) :
  (files w !! JSONStateStorage.path s = None ->
     JSONStateStorage.load s w = (w, inr None))
  /\ (forall (doc : text) (msg : string),
        files w !! JSONStateStorage.path s = Some doc ->
        json_loads doc = inl msg ->
        JSONStateStorage.load s w = (w, inl (JSONDecodeError msg))
        /\ CoffeeMachineService.init (Json s) settings w
           = (w, inl (JSONDecodeError msg))
        /\ (storage_backend settings = "json" ->
            storage_path settings = JSONStateStorage.path s ->
            startup settings w = (w, inl (JSONDecodeError msg))))
  /\ (forall msg : string,
        is_CoffeeMachineError (JSONDecodeError msg) = false
        /\ exception_handler (JSONDecodeError msg)
           = {| status_code := HTTP_500_INTERNAL_SERVER_ERROR;
                content := JDict [
                  ("message", JStr "Unexpected error occurred");
                  ("details", JStr msg) ] |}
        /\ (forall c m, raised c m <> Some (JSONDecodeError msg))
        /\ (forall c m e, raised c m = Some e ->
              is_CoffeeMachineError e = true ->
              isinstance (JSONDecodeError msg) (type_of e) = false
              /\ status_code (exception_handler e) = HTTP_400_BAD_REQUEST)
        /\ (forall c m e, raised c m = Some e ->
              is_CoffeeMachineError e = false ->
              type_of e = Cls.ValueError
              /\ isinstance (JSONDecodeError msg) (type_of e) = true
              /\ status_code (exception_handler e)
                 = status_code (exception_handler (JSONDecodeError msg))
              /\ dict_get (content (exception_handler e)) "message"
                 = dict_get (content (exception_handler
                                        (JSONDecodeError msg))) "message")).
Proof.
  split; [apply load_json_missing|]. split.
  - intros doc msg Hf Hd.
    pose proof (load_json_malformed s w doc msg Hf Hd) as Hload.
    assert (Hinit : CoffeeMachineService.init (Json s) settings w
                    = (w, inl (JSONDecodeError msg))).
    { unfold CoffeeMachineService.init, CoffeeMachineService._load_machine,
        load, in_world, on_field, get, mbind, Py_bind.
      cbn [fst snd]. rewrite Hload. reflexivity. }
    split; [exact Hload|]. split; [exact Hinit|].
    intros Hbackend Hpath. unfold startup, mbind, Py_bind.
    rewrite Hbackend, Hpath, build_storage_json.
    destruct s. exact Hinit.
  - intros msg. split; [reflexivity|]. split; [reflexivity|].
    split; [|split].
    + intros c m Hr. destruct (raised_kinds c m _ Hr) as [F|[key F]];
        discriminate.
    + intros c m e _ He. split.
      * destruct e; try discriminate He; reflexivity.
      * unfold exception_handler. rewrite He. reflexivity.
    + intros c m e Hr He.
      destruct (raised_kinds c m e Hr) as [F|[key ->]]; [congruence|].
      repeat split.
Qed.

Lemma json_load_error_is_a_value_error_witness :
  JSONStateStorage.load (H := model_lib)
    (JSONStateStorage.mk "data/state.json") empty_world
  = (empty_world, inr None)
  /\ startup (H := model_lib) json_settings corrupt_world
     = (corrupt_world,
        inl (JSONDecodeError "Expecting value: line 1 column 1 (char 0)")).
Proof.
  split.
  - apply (proj1 (@json_load_error_is_a_value_error model_lib
                    (JSONStateStorage.mk "data/state.json") empty_world
                    json_settings)).
    reflexivity.
  - destruct (proj1 (proj2 (@json_load_error_is_a_value_error model_lib
                    (JSONStateStorage.mk "data/state.json") corrupt_world
                    json_settings)) None
                 "Expecting value: line 1 column 1 (char 0)")
      as (_ & _ & Hstart).
    + reflexivity.
    + reflexivity.
    + apply Hstart; reflexivity.
Defined.

(** C8 as stated fails on the fourth validation error: the error of a
    malformed state file is an instance of the class of the unknown-recipe
    error, and the exception handlers give both the same status and the
    same message. *)
Lemma storage_error_not_set_apart :
  let storage_error :=
    JSONDecodeError "Expecting value: line 1 column 1 (char 0)" in
  let recipe_error := ValueError "Unknown recipe 'latte'" in
  outcome (JSONStateStorage.load (H := model_lib)
             (JSONStateStorage.mk "data/state.json") corrupt_world)
    = inl storage_error
  /\ raised (CallBrew "latte") (default_machine 200 100) = Some recipe_error
  /\ isinstance storage_error (type_of recipe_error) = true
  /\ status_code (exception_handler storage_error)
     = status_code (exception_handler recipe_error)
  /\ dict_get (content (exception_handler storage_error)) "message"
     = dict_get (content (exception_handler recipe_error)) "message"
  /\ ~ storage_error_set_apart.
Proof.
  cbv zeta. repeat split; try (vm_compute; reflexivity).
  intros Hclaim.
  destruct (Hclaim model_lib (JSONStateStorage.mk "data/state.json")
              corrupt_world
              (JSONDecodeError "Expecting value: line 1 column 1 (char 0)")
              (CallBrew "latte") (default_machine 200 100)
              (ValueError "Unknown recipe 'latte'"))
    as [Hclass _].
  - reflexivity.
  - vm_compute. reflexivity.
  - vm_compute in Hclass. discriminate.
Qed.

(** ** The tests of the repository, replayed on the reference library *)

Example test_brew_errors_when_containers_are_low :
  brew "espresso" (mk (Container.mk "water" 200 10 "ml")
                      (Container.mk "coffee" 100 100 "g") None)
  = (mk (Container.mk "water" 200 10 "ml")
        (Container.mk "coffee" 100 100 "g") None,
     inl (ContainerEmptyError "water" 24 10)).
Proof. vm_compute. reflexivity. Qed.

Example test_fill_water_prevents_overflow :
  outcome (fill_water 20 (mk (Container.mk "water" 200 190 "ml")
                             (Container.mk "coffee" 100 100 "g") None))
  = inl (ContainerOverflowError "water" 20 10).
Proof. reflexivity. Qed.

Example test_invalid_fill_amount :
  outcome (fill_coffee 0 (default_machine 200 100))
  = inl (InvalidFillAmountError "coffee" 0).
Proof. reflexivity. Qed.

Example test_json_storage_round_trip :
  outcome (brew_then_restart (H := model_lib)
             {| water_capacity_ml := 200; coffee_capacity_g := 100;
                storage_path := "tmp/state.json"; storage_backend := "json" |}
             "espresso" empty_world)
  = inr (to_dict (mk (Container.mk "water" 200 176 "ml")
                     (Container.mk "coffee" 100 92 "g")
                     (Some "Espresso is ready!"))).
Proof. vm_compute. reflexivity. Qed.

Example test_sqlite_storage_round_trip :
  outcome (brew_then_restart (H := model_lib)
             {| water_capacity_ml := 200; coffee_capacity_g := 100;
                storage_path := "tmp/state.db"; storage_backend := "sqlite" |}
             "americano" empty_world)
  = inr (to_dict (mk (Container.mk "water" 200 52 "ml")
                     (Container.mk "coffee" 100 84 "g")
                     (Some "Americano is ready!"))).
Proof. vm_compute. reflexivity. Qed.

Example memory_storage_forgets_on_restart :
  outcome (brew_then_restart (H := model_lib)
             {| water_capacity_ml := 100; coffee_capacity_g := 50;
                storage_path := "tmp/unused.json";
                storage_backend := "memory" |}
             "espresso" empty_world)
  = inr (to_dict (default_machine 100 50)).
Proof. vm_compute. reflexivity. Qed.

Example error_messages :
  exn_str (ContainerEmptyError "water" 24 10)
  = "Cannot make coffee because the water container only has 10 available but 24 is required."
  /\ exn_str (InvalidFillAmountError "coffee" (-5))
     = "The amount (-5) to add to the coffee container must be a positive number.".
Proof. split; reflexivity. Qed.

(* ===================================================================== *)
(** * Further properties of the machine *)
(* ===================================================================== *)

Lemma fill_returns (amount : Z) (c : Container.t) :
  0 < amount -> amount <= Container.capacity c - Container.level c ->
  Container.fill amount c =
  (Container.set_level (Container.level c + amount) c, inr tt).
Proof. intros Ha Hf. rewrite fill_unfold. by_guard. reflexivity. Qed.

Lemma fill_raises_unchanged (amount : Z) (c : Container.t) (e : exn) :
  outcome (Container.fill amount c) = inl e ->
  Container.fill amount c = (c, inl e)
  /\ (e = InvalidFillAmountError (Container.name c) amount /\ amount <= 0
      \/ e = ContainerOverflowError (Container.name c) amount
               (Container.capacity c - Container.level c)
         /\ 0 < amount
         /\ Container.capacity c - Container.level c < amount).
Proof.
  rewrite fill_unfold.
  destruct (Z.leb_spec amount 0) as [Hle|Hlt].
  - simpl. intros [= <-]. auto.
  - destruct (Z.ltb_spec (Container.capacity c - Container.level c) amount).
    + simpl. intros [= <-]. auto 6.
    + discriminate.
Qed.

(** X1. A fill of a positive amount that fits the free space returns,
    raises the level of its own container by exactly the amount, leaves
    the other container as it was and records
    [Added <amount> ml of water.] (or [g of coffee.]) as the last
    message. *)
Theorem fill_credits_its_container (amount : Z) (m : CoffeeMachine.t) :
  0 < amount ->
  (amount <= Container.capacity (water_container m)
             - Container.level (water_container m) ->
     fill_water amount m =
     (mk (Container.mk (Container.name (water_container m))
                       (Container.capacity (water_container m))
                       (Container.level (water_container m) + amount)
                       (Container.unit (water_container m)))
         (coffee_container m)
         (Some ("Added " ++ str_int amount ++ " ml of water.")),
      inr tt))
  /\ (amount <= Container.capacity (coffee_container m)
                - Container.level (coffee_container m) ->
        fill_coffee amount m =
        (mk (water_container m)
            (Container.mk (Container.name (coffee_container m))
                          (Container.capacity (coffee_container m))
                          (Container.level (coffee_container m) + amount)
                          (Container.unit (coffee_container m)))
            (Some ("Added " ++ str_int amount ++ " g of coffee.")),
         inr tt)).
Proof.
  intros Ha. split; intros Hf.
  - rewrite fill_water_unfold, (fill_returns amount _ Ha Hf). reflexivity.
  - rewrite fill_coffee_unfold, (fill_returns amount _ Ha Hf). reflexivity.
Qed.

Lemma fill_credits_its_container_witness :
  fill_water 30 (mk (Container.mk "water" 200 152 "ml")
                    (Container.mk "coffee" 100 84 "g") None)
  = (mk (Container.mk "water" 200 182 "ml")
        (Container.mk "coffee" 100 84 "g")
        (Some "Added 30 ml of water."), inr tt).
Proof.
  apply (proj1 (fill_credits_its_container 30
                  (mk (Container.mk "water" 200 152 "ml")
                      (Container.mk "coffee" 100 84 "g") None)
                  ltac:(lia))).
  simpl. lia.
Defined.

(** X2. A fill that raises leaves the whole machine as it was, the last
    message included, and the exception is [InvalidFillAmountError] for an
    amount that is not positive and [ContainerOverflowError] with the free
    space otherwise. *)
Theorem failed_fill_leaves_machine_untouched (amount : Z)
    (m : CoffeeMachine.t) (e : exn) :
  (outcome (fill_water amount m) = inl e ->
     fill_water amount m = (m, inl e)
     /\ (e = InvalidFillAmountError
              (Container.name (water_container m)) amount
         \/ e = ContainerOverflowError
                  (Container.name (water_container m)) amount
                  (Container.capacity (water_container m)
                   - Container.level (water_container m))))
  /\ (outcome (fill_coffee amount m) = inl e ->
        fill_coffee amount m = (m, inl e)
        /\ (e = InvalidFillAmountError
                 (Container.name (coffee_container m)) amount
            \/ e = ContainerOverflowError
                     (Container.name (coffee_container m)) amount
                     (Container.capacity (coffee_container m)
                      - Container.level (coffee_container m)))).
Proof.
  split.
  - rewrite fill_water_unfold.
    destruct (Container.fill amount (water_container m)) as [w' [e'|[]]] eqn:E;
      [|discriminate].
    simpl. intros [= <-].
    destruct (fill_raises_unchanged amount (water_container m) e')
      as [_ [[-> _]|[-> _]]]; [rewrite E; reflexivity| |]; auto.
  - rewrite fill_coffee_unfold.
    destruct (Container.fill amount (coffee_container m)) as [c' [e'|[]]] eqn:E;
      [|discriminate].
    simpl. intros [= <-].
    destruct (fill_raises_unchanged amount (coffee_container m) e')
      as [_ [[-> _]|[-> _]]]; [rewrite E; reflexivity| |]; auto.
Qed.

Lemma failed_fill_leaves_machine_untouched_witness :
  fill_water 20 (mk (Container.mk "water" 200 190 "ml")
                    (Container.mk "coffee" 100 100 "g")
                    (Some "Espresso is ready!"))
  = (mk (Container.mk "water" 200 190 "ml")
        (Container.mk "coffee" 100 100 "g")
        (Some "Espresso is ready!"),
     inl (ContainerOverflowError "water" 20 10)).
Proof.
  apply (proj1 (failed_fill_leaves_machine_untouched 20 _ _)).
  reflexivity.
Defined.

(** X3. When the water is short, [brew] of a known recipe raises
    [ContainerEmptyError] for the water container, with the recipe's water
    amount and the current level, whatever the coffee level is, and leaves
    the whole machine as it was. *)
Theorem brew_water_shortage_changes_nothing (key : string) (r : Recipe)
    (m : CoffeeMachine.t) :
  RECIPES !! key = Some r ->
  Container.level (water_container m) < water_ml r ->
  brew key m =
  (m, inl (ContainerEmptyError (Container.name (water_container m))
             (water_ml r) (Container.level (water_container m)))).
Proof.
  intros Hr Hw. rewrite (brew_unfold key r m Hr). cbv zeta.
  by_guard. reflexivity.
Qed.

Lemma brew_water_shortage_changes_nothing_witness :
  brew "americano" (mk (Container.mk "water" 200 10 "ml")
                       (Container.mk "coffee" 100 3 "g") None)
  = (mk (Container.mk "water" 200 10 "ml")
        (Container.mk "coffee" 100 3 "g") None,
     inl (ContainerEmptyError "water" 148 10)).
Proof.
  apply (brew_water_shortage_changes_nothing "americano"
           {| water_ml := 148; coffee_g := 16 |}).
  - vm_compute. reflexivity.
  - simpl. lia.
Defined.

(** X4. [brew] returns exactly when the name is in the recipe table and
    both containers hold at least the recipe's amounts; what it returns is
    then the table's entry. *)
Theorem brew_returns_iff_stocked (key : string) (m : CoffeeMachine.t)
    (r : Recipe) :
  outcome (brew key m) = inr r <->
  RECIPES !! key = Some r
  /\ water_ml r <= Container.level (water_container m)
  /\ coffee_g r <= Container.level (coffee_container m).
Proof.
  split.
  - destruct (RECIPES !! key) as [r'|] eqn:Hr.
    + rewrite (brew_unfold key r' m Hr). cbv zeta.
      destruct (Z.ltb_spec (Container.level (water_container m)) (water_ml r'));
        [discriminate|].
      destruct (Z.ltb_spec (Container.level (coffee_container m)) (coffee_g r'));
        [discriminate|].
      simpl. intros [= <-]. auto.
    + rewrite (brew_unknown key m Hr). discriminate.
  - intros (Hr & Hw & Hc). rewrite (brew_unfold key r m Hr). cbv zeta.
    by_guard. reflexivity.
Qed.

Lemma brew_returns_iff_stocked_witness :
  outcome (brew "ristretto" (default_machine 16 8))
  = inr {| water_ml := 16; coffee_g := 8 |}.
Proof.
  apply (proj2 (brew_returns_iff_stocked "ristretto" (default_machine 16 8)
                  {| water_ml := 16; coffee_g := 8 |})).
  split; [vm_compute; reflexivity|]. simpl. lia.
Defined.

Lemma raising_call_keeps_last_message_aux (c : Call) (m : CoffeeMachine.t)
    (e : exn) :
  raised c m = Some e -> (forall key, c <> CallBrew key) -> perform c m = m.
Proof.
  destruct c as [key|amount|amount|]; unfold raised, error_of, perform;
    intros Hr Hc.
  - destruct (Hc key). reflexivity.
  - rewrite fill_water_unfold in *.
    destruct (Container.fill amount (water_container m)) as [w' [e'|[]]];
      [reflexivity|discriminate].
  - rewrite fill_coffee_unfold in *.
    destruct (Container.fill amount (coffee_container m)) as [c' [e'|[]]];
      [reflexivity|discriminate].
  - discriminate.
Qed.

(** X5. A call that raises never changes the last message nor the coffee
    container, and unless it is a [brew] it changes nothing at all: the
    last message always stems from the latest call that returned. *)
Theorem raising_call_keeps_last_message (c : Call) (m : CoffeeMachine.t)
    (e : exn) :
  raised c m = Some e ->
  last_message (perform c m) = last_message m
  /\ coffee_container (perform c m) = coffee_container m
  /\ ((forall key, c <> CallBrew key) -> perform c m = m).
Proof.
  destruct c as [key|amount|amount|]; unfold raised, error_of, perform.
  - destruct (RECIPES !! key) as [r|] eqn:Hr.
    + rewrite (brew_unfold key r m Hr). cbv zeta.
      destruct (_ <? water_ml r);
        [intros _; repeat split; intros Hk; destruct (Hk key); reflexivity|].
      destruct (_ <? coffee_g r); [|discriminate].
      intros _. repeat split. intros Hk. destruct (Hk key). reflexivity.
    + rewrite (brew_unknown key m Hr). intros _. repeat split.
  - rewrite fill_water_unfold.
    destruct (Container.fill amount (water_container m)) as [w' [e'|[]]];
      [|discriminate].
    intros _. repeat split.
  - rewrite fill_coffee_unfold.
    destruct (Container.fill amount (coffee_container m)) as [c' [e'|[]]];
      [|discriminate].
    intros _. repeat split.
  - discriminate.
Qed.

Lemma raising_call_keeps_last_message_witness :
  let m := mk (Container.mk "water" 200 176 "ml")
              (Container.mk "coffee" 100 4 "g")
              (Some "Espresso is ready!") in
  last_message (perform (CallBrew "espresso") m) = Some "Espresso is ready!"
  /\ coffee_container (perform (CallBrew "espresso") m)
     = Container.mk "coffee" 100 4 "g".
Proof.
  intros m.
  destruct (raising_call_keeps_last_message (CallBrew "espresso") m
              (ContainerEmptyError "coffee" 8 4))
    as (Hmsg & Hcoffee & _).
  - vm_compute. reflexivity.
  - split; [exact Hmsg | exact Hcoffee].
Defined.

(** X6. Whatever its outcome, a [brew] never raises a level, a
    [fill_water] never lowers the water level and leaves the coffee
    container alone, a [fill_coffee] never lowers the coffee level and
    leaves the water container alone. *)
Theorem calls_move_levels_one_way (c : Call) (m : CoffeeMachine.t) :
  match c with
  | CallBrew _ =>
      Container.level (water_container (perform c m))
        <= Container.level (water_container m)
      /\ Container.level (coffee_container (perform c m))
         <= Container.level (coffee_container m)
  | CallFillWater _ =>
      Container.level (water_container m)
        <= Container.level (water_container (perform c m))
      /\ coffee_container (perform c m) = coffee_container m
  | CallFillCoffee _ =>
      Container.level (coffee_container m)
        <= Container.level (coffee_container (perform c m))
      /\ water_container (perform c m) = water_container m
  | CallStatus => perform c m = m
  end.
Proof.
  destruct c as [key|amount|amount|]; unfold perform.
  - destruct (RECIPES !! key) as [r|] eqn:Hr.
    + destruct (recipes_positive key r Hr) as [Pw Pc].
      rewrite (brew_unfold key r m Hr). cbv zeta.
      destruct (_ <? water_ml r); [simpl; lia|].
      destruct (_ <? coffee_g r); simpl; lia.
    + rewrite (brew_unknown key m Hr). simpl. lia.
  - rewrite fill_water_unfold, fill_unfold.
    destruct (Z.leb_spec amount 0); [simpl; split; [lia|reflexivity]|].
    destruct (_ <? amount); simpl; split; try reflexivity; lia.
  - rewrite fill_coffee_unfold, fill_unfold.
    destruct (Z.leb_spec amount 0); [simpl; split; [lia|reflexivity]|].
    destruct (_ <? amount); simpl; split; try reflexivity; lia.
  - reflexivity.
Qed.

(** X7. On a container whose level is not negative, a [fill] that
    returns is undone by a [use] of the same amount; a [use] of a positive
    amount that returns on a container not above its capacity is undone by
    a [fill] of the same amount: both calls return and the container is
    back as it was. *)
Theorem use_and_fill_undo_each_other (amount : Z) (c : Container.t) :
  (0 <= Container.level c ->
   outcome (Container.fill amount c) = inr tt ->
     Container.use amount (state_of (Container.fill amount c)) = (c, inr tt))
  /\ (0 < amount ->
      Container.level c <= Container.capacity c ->
      outcome (Container.use amount c) = inr tt ->
        Container.fill amount (state_of (Container.use amount c))
        = (c, inr tt)).
Proof.
  destruct c as [name capacity level unit]. split.
  - intros Hlevel. rewrite fill_unfold.
    cbn [Container.level Container.capacity] in *.
    destruct (Z.leb_spec amount 0); [discriminate|].
    destruct (Z.ltb_spec (capacity - level) amount); [discriminate|].
    intros _. cbn [state_of fst]. rewrite use_unfold.
    cbn [Container.level Container.set_level Container.name
         Container.capacity Container.unit].
    by_guard. unfold Container.set_level. cbn. do 2 f_equal. lia.
  - intros Ha Hcap. rewrite use_unfold.
    cbn [Container.level Container.capacity] in *.
    destruct (Z.ltb_spec level amount); [discriminate|].
    intros _. cbn [state_of fst]. rewrite fill_unfold.
    cbn [Container.level Container.set_level Container.name
         Container.capacity Container.unit].
    by_guard. unfold Container.set_level. cbn. do 2 f_equal. lia.
Qed.

Lemma use_and_fill_undo_each_other_witness :
  Container.use 10 (state_of (Container.fill 10
                                (Container.mk "water" 200 190 "ml")))
  = (Container.mk "water" 200 190 "ml", inr tt)
  /\ Container.fill 24 (state_of (Container.use 24
                                    (Container.mk "water" 200 200 "ml")))
     = (Container.mk "water" 200 200 "ml", inr tt).
Proof.
  split.
  - apply (proj1 (use_and_fill_undo_each_other 10
                    (Container.mk "water" 200 190 "ml"))).
    + simpl. lia.
    + reflexivity.
  - apply (proj2 (use_and_fill_undo_each_other 24
                    (Container.mk "water" 200 200 "ml"))).
    + lia.
    + simpl. lia.
    + reflexivity.
Defined.

(** X8. After a [brew] that returned, on a machine whose containers are
    not above their capacity, refilling the recipe's water and coffee
    returns as well and brings both containers back to what they were
    before the brew. *)
Theorem refill_after_brew_restores_containers (key : string) (r : Recipe)
    (m : CoffeeMachine.t) :
  Container.level (water_container m)
    <= Container.capacity (water_container m) ->
  Container.level (coffee_container m)
    <= Container.capacity (coffee_container m) ->
  outcome (brew key m) = inr r ->
  let refilled :=
    (fill_water (water_ml r);; fill_coffee (coffee_g r))
      (state_of (brew key m)) in
  outcome refilled = inr tt
  /\ water_container (state_of refilled) = water_container m
  /\ coffee_container (state_of refilled) = coffee_container m.
Proof.
  intros Hwcap Hccap Hret.
  assert (Hr : RECIPES !! key = Some r).
  { destruct (RECIPES !! key) as [r'|] eqn:Hr.
    - rewrite (brew_unfold key r' m Hr) in Hret. cbv zeta in Hret.
      destruct (_ <? water_ml r'); [discriminate|].
      destruct (_ <? coffee_g r'); [discriminate|].
      simpl in Hret. congruence.
    - rewrite (brew_unknown key m Hr) in Hret. discriminate. }
  destruct (recipes_positive key r Hr) as [Pw Pc].
  rewrite (brew_unfold key r m Hr) in *. cbv zeta in *.
  destruct m as [[wn wc wl wu] [cn cc cl cu] msg].
  cbn [water_container coffee_container Container.level Container.capacity
       Container.set_level Container.name Container.unit] in *.
  destruct (Z.ltb_spec wl (water_ml r)); [discriminate|].
  destruct (Z.ltb_spec cl (coffee_g r)); [discriminate|].
  cbn [state_of fst]. unfold mbind, Py_bind.
  rewrite fill_water_unfold, fill_unfold.
  cbn [water_container coffee_container Container.level Container.capacity
       Container.set_level Container.name Container.unit].
  by_guard.
  rewrite fill_coffee_unfold, fill_unfold.
  cbn [water_container coffee_container Container.level Container.capacity
       Container.set_level Container.name Container.unit].
  by_guard.
  unfold Container.set_level. cbn. repeat split; f_equal; lia.
Qed.

Lemma refill_after_brew_restores_containers_witness :
  let m := default_machine 200 100 in
  let refilled :=
    (fill_water 24;; fill_coffee 8) (state_of (brew "espresso" m)) in
  outcome refilled = inr tt
  /\ water_container (state_of refilled) = Container.mk "water" 200 200 "ml"
  /\ coffee_container (state_of refilled) = Container.mk "coffee" 100 100 "g".
Proof.
  intros m.
  apply (refill_after_brew_restores_containers "espresso"
           {| water_ml := 24; coffee_g := 8 |} m).
  - simpl. lia.
  - simpl. lia.
  - vm_compute. reflexivity.
Defined.

(** ** Machines in service and the response models *)

Lemma perform_frame (c : Call) (m : CoffeeMachine.t) :
  Container.name (water_container (perform c m))
    = Container.name (water_container m)
  /\ Container.capacity (water_container (perform c m))
     = Container.capacity (water_container m)
  /\ Container.unit (water_container (perform c m))
     = Container.unit (water_container m)
  /\ Container.name (coffee_container (perform c m))
     = Container.name (coffee_container m)
  /\ Container.capacity (coffee_container (perform c m))
     = Container.capacity (coffee_container m)
  /\ Container.unit (coffee_container (perform c m))
     = Container.unit (coffee_container m).
Proof.
  destruct c as [key|amount|amount|]; unfold perform.
  - destruct (RECIPES !! key) as [r|] eqn:Hr.
    + rewrite (brew_unfold key r m Hr). cbv zeta.
      destruct (_ <? water_ml r); [repeat split|].
      destruct (_ <? coffee_g r); repeat split.
    + rewrite (brew_unknown key m Hr). repeat split.
  - rewrite fill_water_unfold, fill_unfold.
    destruct (amount <=? 0); [repeat split|].
    destruct (_ <? amount); repeat split.
  - rewrite fill_coffee_unfold, fill_unfold.
    destruct (amount <=? 0); [repeat split|].
    destruct (_ <? amount); repeat split.
  - repeat split.
Qed.

Lemma reachable_labelled (W C : Z) (m : CoffeeMachine.t) :
  reachable W C m -> labelled W C m.
Proof.
  induction 1 as [|m c _ IH].
  - repeat split.
  - destruct (perform_frame c m) as (E1 & E2 & E3 & E4 & E5 & E6).
    destruct IH as (I1 & I2 & I3 & I4 & I5 & I6).
    unfold labelled. rewrite E1, E2, E3, E4, E5, E6. auto 10.
Qed.

Lemma reachable_bounds (W C : Z) (m : CoffeeMachine.t) :
  0 <= W -> 0 <= C -> reachable W C m -> machine_in_bounds m.
Proof.
  intros HW HC. induction 1 as [|m c _ IH].
  - split; unfold in_bounds; simpl; lia.
  - apply perform_in_bounds, IH.
Qed.

Lemma labelled_status_schema (W C : Z) (m : CoffeeMachine.t) :
  labelled W C m ->
  Schemas.MachineStatus (to_dict m)
  = (0 <? W) && (0 <=? Container.level (water_container m))
    && ((0 <? C) && (0 <=? Container.level (coffee_container m))).
Proof.
  destruct m as [[wn wc wl wu] [cn cc cl cu] msg].
  intros (E1 & E2 & E3 & E4 & E5 & E6). cbn in E1, E2, E3, E4, E5, E6.
  subst. unfold Schemas.MachineStatus, Schemas.ContainerStatus,
    Schemas.PositiveInt. cbn.
  destruct msg; cbn; rewrite ?andb_true_r; reflexivity.
Qed.

(** X9. Every machine reached from [default_machine(W, C)] with positive
    capacities keeps the names [water] / [coffee], the units [ml] / [g]
    and the capacities [W] / [C], and what [status()] returns for it meets
    the constraints of the [MachineStatus] response model. *)
Theorem reachable_status_fits_schema (W C : Z) (m : CoffeeMachine.t) :
  0 < W -> 0 < C ->
  reachable W C m ->
  labelled W C m
  /\ exists body, outcome (status m) = inr body
                  /\ Schemas.MachineStatus body = true.
Proof.
  intros HW HC Hreach.
  pose proof (reachable_labelled W C m Hreach) as Hl.
  destruct (reachable_bounds W C m ltac:(lia) ltac:(lia) Hreach)
    as [[Hw _] [Hc _]].
  split; [exact Hl|]. exists (to_dict m). split; [reflexivity|].
  rewrite (labelled_status_schema W C m Hl).
  repeat (apply andb_true_intro; split);
    first [apply Z.ltb_lt | apply Z.leb_le]; assumption.
Qed.

Lemma reachable_status_fits_schema_witness :
  let m := perform (CallBrew "americano") (default_machine 200 100) in
  labelled 200 100 m
  /\ exists body, outcome (status m) = inr body
                  /\ Schemas.MachineStatus body = true.
Proof.
  intros m.
  apply (reachable_status_fits_schema 200 100 m); [lia | lia |].
  unfold m. apply reach_call, reach_default.
Defined.

(** X10. The status of [default_machine(W, C)] meets the constraints of
    the [MachineStatus] model exactly when both capacities are positive:
    capacities are taken from the settings unchecked, and a capacity of
    zero or less gives a machine whose status the response model
    refuses. *)
Theorem default_machine_fits_schema_iff_positive (W C : Z) :
  Schemas.MachineStatus (to_dict (default_machine W C)) = true
  <-> 0 < W /\ 0 < C.
Proof.
  rewrite (labelled_status_schema W C (default_machine W C))
    by (repeat split).
  cbn [default_machine water_container coffee_container Container.level].
  rewrite !andb_true_iff, !Z.ltb_lt, !Z.leb_le. lia.
Qed.

Lemma default_machine_fits_schema_iff_positive_witness :
  Schemas.MachineStatus (to_dict (default_machine 2000 500)) = true
  /\ Schemas.MachineStatus (to_dict (default_machine 0 500)) <> true.
Proof.
  split.
  - apply (proj2 (default_machine_fits_schema_iff_positive 2000 500)). lia.
  - intros H.
    apply (proj1 (default_machine_fits_schema_iff_positive 0 500)) in H. lia.
Defined.

(** ** Display names and snapshots *)

Lemma title_char_not_underscore (c : ascii) :
  is_lower c || is_upper c = true ->
  to_lower c <> "_"%char /\ to_upper c <> "_"%char.
Proof.
  destruct c as [[] [] [] [] [] [] [] []]; vm_compute;
    intros H; try discriminate H; split; discriminate.
Qed.

Lemma title_from_length (previous_is_cased : bool) (s : string) :
  String.length (title_from previous_is_cased s) = String.length s.
Proof.
  revert previous_is_cased. induction s as [|c s IH]; intros b; simpl.
  - reflexivity.
  - destruct (is_lower c || is_upper c); simpl; rewrite IH; reflexivity.
Qed.

Lemma replace_char_length (old new : ascii) (s : string) :
  String.length (replace_char old new s) = String.length s.
Proof. induction s as [|c s IH]; simpl; [|rewrite IH]; reflexivity. Qed.

Lemma title_replace_no_underscore (previous_is_cased : bool) (s : string) :
  Forall (fun c => c <> "_"%char)
    (list_ascii_of_string
       (title_from previous_is_cased (replace_char "_" " " s))).
Proof.
  revert previous_is_cased. induction s as [|c s IH]; intros b; simpl.
  - constructor.
  - destruct (Ascii.eqb_spec c "_") as [->|Hne].
    + simpl. constructor; [discriminate | apply IH].
    + destruct (is_lower c || is_upper c) eqn:Hcased; simpl.
      * destruct (title_char_not_underscore c Hcased) as [Hl Hu].
        constructor; [destruct b; assumption | apply IH].
      * constructor; [assumption | apply IH].
Qed.

(** X11. The display name of an ASCII recipe key has as many characters
    as the key and contains no underscore. *)
Theorem friendly_name_shape (recipe_key : string) :
  is_ascii recipe_key ->
  String.length (_friendly_name recipe_key) = String.length recipe_key
  /\ Forall (fun c => c <> "_"%char)
       (list_ascii_of_string (_friendly_name recipe_key)).
Proof.
  intros _. unfold _friendly_name, title. split.
  - rewrite title_from_length. apply replace_char_length.
  - apply title_replace_no_underscore.
Qed.

Lemma friendly_name_shape_witness :
  _friendly_name "double_espresso" = "Double Espresso"
  /\ String.length (_friendly_name "double_espresso") = 15%nat.
Proof.
  split; [reflexivity|].
  apply (proj1 (friendly_name_shape "double_espresso"
                  ltac:(unfold is_ascii; simpl;
                        repeat constructor; vm_compute; lia))).
Defined.

Lemma subscript_skip (k key : string) (v : json)
    (items : list (string * json)) :
  k <> key ->
  subscript (JDict ((k, v) :: items)) key = subscript (JDict items) key.
Proof.
  intros Hne. unfold subscript. cbn [List.find fst].
  destruct (String.eqb_spec k key); [contradiction | reflexivity].
Qed.

Lemma dict_get_skip (k key : string) (v : json)
    (items : list (string * json)) :
  k <> key ->
  dict_get (JDict ((k, v) :: items)) key = dict_get (JDict items) key.
Proof.
  intros Hne. unfold dict_get. cbn [List.find fst].
  destruct (String.eqb_spec k key); [contradiction | reflexivity].
Qed.

(** X12. [CoffeeMachine.from_dict] on documents that are not snapshots:
    a dict without the key [water] raises [KeyError('water')]; a missing
    [last_message] is read as [None]; an entry under any other key than
    [water], [coffee] and [last_message] is ignored. *)
Theorem from_dict_on_partial_documents :
  (forall items : list (string * json),
      List.find (fun kv => String.eqb (fst kv) "water") items = None ->
      from_dict (JDict items) = inl (KeyError "water"))
  /\ (forall water coffee : Container.t,
        from_dict (JDict [ ("water", Container.to_dict water);
                           ("coffee", Container.to_dict coffee) ])
        = inr (mk water coffee None))
  /\ (forall (k : string) (v : json) (items : list (string * json)),
        k <> "water" -> k <> "coffee" -> k <> "last_message" ->
        from_dict (JDict ((k, v) :: items)) = from_dict (JDict items)).
Proof.
  split; [|split].
  - intros items Hfind. unfold from_dict, subscript. rewrite Hfind.
    reflexivity.
  - intros [] []. reflexivity.
  - intros k v items Hw Hc Hm. unfold from_dict.
    rewrite !subscript_skip, dict_get_skip by assumption. reflexivity.
Qed.

Lemma from_dict_on_partial_documents_witness :
  from_dict (JDict [ ("coffee", Container.to_dict
                                  (Container.mk "coffee" 100 92 "g")) ])
  = inl (KeyError "water")
  /\ from_dict (JDict (("version", JInt 2)
                       :: [ ("water", Container.to_dict
                                        (Container.mk "water" 200 176 "ml"));
                            ("coffee", Container.to_dict
                                         (Container.mk "coffee" 100 92 "g")) ]))
     = inr (mk (Container.mk "water" 200 176 "ml")
               (Container.mk "coffee" 100 92 "g") None).
Proof.
  destruct from_dict_on_partial_documents as (Hmissing & Hnone & Hskip).
  split.
  - apply Hmissing. reflexivity.
  - rewrite Hskip by discriminate. apply Hnone.
Defined.

(* ===================================================================== *)
(** * Further properties of the storage backends *)
(* ===================================================================== *)

Section StorageProperties.

Context `{L : PyLib}.

Lemma load_unchanged (storage : StateStorage) (w : World) :
  state_of (load (storage, w)) = (storage, w).
Proof.
  destruct storage as [s|s|s];
    unfold load, in_world, in_memory, on_field, JSONStateStorage.load,
      MemoryStateStorage.load, SQLiteStateStorage.load, get, mbind, Py_bind;
    cbn [fst snd state_of].
  - destruct (files w !! JSONStateStorage.path s) as [doc|];
      [destruct (json_loads doc)|]; reflexivity.
  - destruct s. reflexivity.
  - destruct (databases w !! SQLiteStateStorage.path s) as [[payload|]|];
      [destruct (json_loads payload)| |]; reflexivity.
Qed.

(** X13. [load()] is read-only on the JSON and the memory backend and,
    where the database of its path exists, on the SQLite backend: whether
    it returns a snapshot, returns [None] or raises on a malformed
    document, the storage object, the files and the databases are as
    before. *)
Theorem load_is_read_only (storage : StateStorage) (w : World) :
  match storage with
  | Sqlite s => is_Some (databases w !! SQLiteStateStorage.path s)
  | Json _ | Memory _ => True
  end ->
  state_of (load (storage, w)) = (storage, w).
Proof. intros _. apply load_unchanged. Qed.

Lemma save_returns_inv (data : json) (storage storage' : StateStorage)
    (w w' : World) :
  save data (storage, w) = ((storage', w'), inr tt) ->
  match storage with
  | Json s =>
      storage' = storage /\ w' = json_saved (JSONStateStorage.path s) data w
  | Memory s =>
      w' = w
      /\ exists copy, json_loads (json_dumps None data) = inr copy
                      /\ storage' = Memory (MemoryStateStorage.mk (Some copy))
  | Sqlite s =>
      storage' = storage
      /\ is_Some (databases w !! SQLiteStateStorage.path s)
      /\ w' = set_databases
                (<[SQLiteStateStorage.path s := Some (json_dumps None data)]>
                   (databases w)) w
  end.
Proof.
  destruct storage as [s|s|s].
  - rewrite save_json. intros [= <- <-]. auto.
  - unfold save, in_memory, on_field, MemoryStateStorage.save, get, mbind,
      Py_bind, modify.
    destruct (json_loads (json_dumps None data)) as [msg|copy];
      [discriminate|].
    intros [= <- <-]. eauto.
  - destruct (databases w !! SQLiteStateStorage.path s) as [row|] eqn:Hd.
    + rewrite save_sqlite by eauto. intros [= <- <-]. eauto.
    + unfold save, in_world, on_field, SQLiteStateStorage.save, get, mbind,
        Py_bind.
      cbn [fst snd]. rewrite Hd. discriminate.
Qed.

Lemma save_then_load_returns `{!PyLibSpec L} (data : json)
    (storage storage' : StateStorage) (w w' : World) :
  wf_json data = true ->
  save data (storage, w) = ((storage', w'), inr tt) ->
  load (storage', w') = ((storage', w'), inr (Some data)).
Proof.
  intros Hwf Hsave. apply save_returns_inv in Hsave.
  destruct storage as [s|s|s].
  - destruct Hsave as [-> ->].
    apply (load_json_present _ _ (json_dumps (Some 2%nat) data)).
    + cbn. apply lookup_insert_eq.
    + by apply json_loads_dumps.
  - destruct Hsave as (-> & copy & Hcopy & ->).
    rewrite json_loads_dumps in Hcopy by done. injection Hcopy as <-.
    apply load_memory.
  - destruct Hsave as (-> & _ & ->).
    apply (load_sqlite_present _ _ (json_dumps None data)).
    + cbn. apply lookup_insert_eq.
    + by apply json_loads_dumps.
Qed.

Lemma save_again_returns `{!PyLibSpec L} (first second : json)
    (storage storage' : StateStorage) (w w' : World) :
  wf_json second = true ->
  save first (storage, w) = ((storage', w'), inr tt) ->
  exists storage'' w'',
    save second (storage', w') = ((storage'', w''), inr tt).
Proof.
  intros Hwf Hsave. apply save_returns_inv in Hsave.
  destruct storage as [s|s|s].
  - destruct Hsave as [-> ->]. rewrite save_json. eauto.
  - destruct Hsave as (-> & copy & _ & ->).
    rewrite save_memory by (by apply json_loads_dumps). eauto.
  - destruct Hsave as (-> & _ & ->).
    rewrite save_sqlite by (cbn; rewrite lookup_insert_eq; eauto). eauto.
Qed.

(** X14. A save replaces what was saved before: on every backend, with a
    JSON library that decodes what it encodes, once a first [save] has
    returned, a second [save] through the same object returns too and the
    next [load] gives the second snapshot, not the first. *)
Theorem last_save_wins `{!PyLibSpec L} (first second : json)
    (storage : StateStorage) (w : World) :
  wf_json second = true ->
  outcome (save first (storage, w)) = inr tt ->
  outcome (save_twice_then_load first second (storage, w))
  = inr (Some second).
Proof.
  intros Hwf Hfirst. unfold save_twice_then_load, mbind, Py_bind.
  destruct (save first (storage, w)) as [[storage' w'] r] eqn:E1.
  simpl in Hfirst. subst r.
  destruct (save_again_returns first second storage storage' w w' Hwf E1)
    as (storage'' & w'' & E2).
  rewrite E2, (save_then_load_returns second storage' storage'' w' w'' Hwf E2).
  reflexivity.
Qed.

(** X15. When [JSONStateStorage.save] returns, on a target and a
    temporary path that hold no database, it has written its target and
    nothing else: the target holds the new document, every file other
    than the target and the temporary sibling is as before, the temporary
    file is gone when its path differs from the target, and the databases
    are as before. *)
Theorem json_save_touches_only_its_target (data : json)
    (s : JSONStateStorage.t) (w : World) :
  let target := JSONStateStorage.path s in
  let tmp_path := with_suffix target ".tmp" in
  let w' := snd (state_of (save data (Json s, w))) in
  databases w !! target = None ->
  databases w !! tmp_path = None ->
  outcome (save data (Json s, w)) = inr tt ->
  files w' !! target = Some (json_dumps (Some 2%nat) data)
  /\ (tmp_path <> target -> files w' !! tmp_path = None)
  /\ (forall other, other <> target -> other <> tmp_path ->
        files w' !! other = files w !! other)
  /\ databases w' = databases w.
Proof.
  cbv zeta. intros _ _ _. rewrite save_json.
  cbn [state_of outcome fst snd].
  unfold json_saved. cbn [files databases set_files].
  repeat split.
  - apply lookup_insert_eq.
  - intros Hne. rewrite lookup_insert_ne by congruence.
    apply lookup_delete_eq.
  - intros other Ht Htmp.
    rewrite lookup_insert_ne by congruence.
    rewrite lookup_delete_ne by congruence.
    apply lookup_insert_ne. congruence.
Qed.

(** X16. Building a [SQLiteStateStorage] on a path whose database already
    exists changes nothing, so a saved row survives; a [save] that returns
    replaces the row of its own database and touches neither another
    database nor any file. *)
Theorem sqlite_storage_touches_only_its_database (data : json)
    (path : string) (w : World) :
  (is_Some (databases w !! path) ->
     build_storage "sqlite" path w
     = (w, inr (Sqlite (SQLiteStateStorage.mk path))))
  /\ (is_Some (databases w !! path) ->
      let w' := snd (state_of
                  (save data (Sqlite (SQLiteStateStorage.mk path), w))) in
      databases w' !! path = Some (Some (json_dumps None data))
      /\ (forall other, other <> path ->
            databases w' !! other = databases w !! other)
      /\ files w' = files w).
Proof.
  split.
  - intros Hdb. rewrite build_storage_sqlite.
    rewrite sqlite_initialised_again by assumption. reflexivity.
  - intros Hdb. cbv zeta. rewrite save_sqlite by assumption.
    cbn [state_of fst snd SQLiteStateStorage.path databases files
         set_databases].
    repeat split.
    + apply lookup_insert_eq.
    + intros other Hne. apply lookup_insert_ne. congruence.
Qed.

(** X17. The memory backend needs no disk: building it, saving through
    it and loading from it leave every file and database as they were,
    whatever the outcome of the call. *)
Theorem memory_storage_leaves_world_alone (data : json)
    (s : MemoryStateStorage.t) (path : string) (w : World) :
  state_of (build_storage "memory" path w) = w
  /\ snd (state_of (save data (Memory s, w))) = w
  /\ snd (state_of (load (Memory s, w))) = w.
Proof.
  repeat split.
  unfold save, in_memory, on_field, MemoryStateStorage.save, get, mbind,
    Py_bind, modify.
  destruct (json_loads (json_dumps None data)); reflexivity.
Qed.

(** X18. For a backend name of ASCII characters, [build_storage] goes by
    the lower-cased name: [json], [sqlite] (on a path that holds no JSON
    document) and [memory], in any letter case, give the matching storage
    object; any other name raises [ValueError] with the lower-cased name
    in its message and leaves the world untouched. *)
Theorem build_storage_by_lowercase_name (backend path : string) (w : World) :
  is_ascii backend ->
  (lower backend = "json" ->
     build_storage backend path w
     = (w, inr (Json (JSONStateStorage.mk path))))
  /\ (lower backend = "sqlite" -> files w !! path = None ->
        build_storage backend path w
        = (sqlite_initialised path w,
           inr (Sqlite (SQLiteStateStorage.mk path))))
  /\ (lower backend = "memory" ->
        build_storage backend path w
        = (w, inr (Memory MemoryStateStorage.init)))
  /\ (lower backend <> "json" -> lower backend <> "sqlite" ->
      lower backend <> "memory" ->
        build_storage backend path w
        = (w, inl (ValueError ("Unsupported storage backend '"
                                 ++ lower backend ++ "'")))).
Proof.
  intros _. unfold build_storage. cbv zeta. repeat split.
  - intros ->. reflexivity.
  - intros -> _. reflexivity.
  - intros ->. reflexivity.
  - intros Hj Hs Hm.
    destruct (String.eqb_spec (lower backend) "json"); [contradiction|].
    destruct (String.eqb_spec (lower backend) "sqlite"); [contradiction|].
    destruct (String.eqb_spec (lower backend) "memory"); [contradiction|].
    reflexivity.
Qed.

End StorageProperties.

Lemma last_save_wins_witness :
  outcome (save_twice_then_load (H := model_lib)
             (to_dict (default_machine 200 100))
             (to_dict (state_of (brew "espresso" (default_machine 200 100))))
             (Json (JSONStateStorage.mk "data/state.json"), empty_world))
  = inr (Some (to_dict (mk (Container.mk "water" 200 176 "ml")
                           (Container.mk "coffee" 100 92 "g")
                           (Some "Espresso is ready!")))).
Proof.
  assert (Hlib : PyLibSpec model_lib).
  { constructor. intros indent v Hwf. reflexivity. }
  apply (last_save_wins (L := model_lib)
           (to_dict (default_machine 200 100))
           (to_dict (state_of (brew "espresso" (default_machine 200 100))))
           (Json (JSONStateStorage.mk "data/state.json")) empty_world).
  - vm_compute. reflexivity.
  - reflexivity.
Defined.

Lemma sqlite_storage_touches_only_its_database_witness :
  let w := state_of (build_storage (H := model_lib) "sqlite" "data/state.db"
                       empty_world) in
  build_storage (H := model_lib) "sqlite" "data/state.db" w
  = (w, inr (Sqlite (SQLiteStateStorage.mk "data/state.db"))).
Proof.
  intros w.
  apply (proj1 (sqlite_storage_touches_only_its_database (L := model_lib)
                  JNull "data/state.db" w)).
  vm_compute. eauto.
Defined.

Lemma build_storage_by_lowercase_name_witness :
  build_storage (H := model_lib) "JSON" "data/state.json" empty_world
  = (empty_world, inr (Json (JSONStateStorage.mk "data/state.json")))
  /\ build_storage (H := model_lib) "Redis" "data/state.json" empty_world
     = (empty_world,
        inl (ValueError "Unsupported storage backend 'redis'")).
Proof.
  split.
  - apply (proj1 (build_storage_by_lowercase_name (L := model_lib)
                    "JSON" "data/state.json" empty_world
                    ltac:(unfold is_ascii; simpl;
                          repeat constructor; vm_compute; lia))).
    reflexivity.
  - apply (proj2 (proj2 (proj2
             (build_storage_by_lowercase_name (L := model_lib)
                "Redis" "data/state.json" empty_world
                ltac:(unfold is_ascii; simpl;
                      repeat constructor; vm_compute; lia)))));
      vm_compute; discriminate.
Defined.

Lemma load_is_read_only_witness :
  load (H := model_lib)
    (Json (JSONStateStorage.mk "data/state.json"), corrupt_world)
  = ((Json (JSONStateStorage.mk "data/state.json"), corrupt_world),
     inl (JSONDecodeError "Expecting value: line 1 column 1 (char 0)"))
  /\ state_of (load (H := model_lib)
                 (Json (JSONStateStorage.mk "data/state.json"),
                  corrupt_world))
     = (Json (JSONStateStorage.mk "data/state.json"), corrupt_world).
Proof.
  split; [reflexivity|].
  apply (load_is_read_only (L := model_lib)
           (Json (JSONStateStorage.mk "data/state.json")) corrupt_world).
  exact I.
Defined.

(* ===================================================================== *)
(** * Further properties of the service and the routes *)
(* ===================================================================== *)

Section ServiceProperties.

Context `{L : PyLib} `{P : Pydantic}.

(** A mutating call of the service, step by step: the machine call, then
    the save of the machine's snapshot, then the answer. *)
Lemma serve_unfold (c : Call) (svc : CoffeeMachineService.t) (w : World) :
  c <> CallStatus ->
  let storage := CoffeeMachineService._storage svc in
  let settings := CoffeeMachineService._settings svc in
  let m := CoffeeMachineService._machine svc in
  serve c (svc, w) =
  match raised c m with
  | Some e =>
      ((CoffeeMachineService.mk storage settings (perform c m), w), inl e)
  | None =>
      match save (to_dict (perform c m)) (storage, w) with
      | ((storage', w'), inl e) =>
          ((CoffeeMachineService.mk storage' settings (perform c m), w'),
           inl e)
      | ((storage', w'), inr _) =>
          ((CoffeeMachineService.mk storage' settings (perform c m), w'),
           inr (answer c (usage_of c m) (perform c m)))
      end
  end.
Proof.
  intros Hc. destruct svc as [storage settings m]. cbv zeta.
  cbn [CoffeeMachineService._storage CoffeeMachineService._settings
       CoffeeMachineService._machine].
  destruct c as [key|amount|amount|]; [| | |contradiction];
    unfold serve, raised, error_of, perform, usage_of, answer,
      CoffeeMachineService.brew, CoffeeMachineService.fill_water,
      CoffeeMachineService.fill_coffee, CoffeeMachineService._persist,
      CoffeeMachineService.on_machine, CoffeeMachineService.on_storage,
      on_field, get, mbind, Py_bind, mret, Py_ret, state_of, outcome;
    cbn [fst snd CoffeeMachineService._storage
         CoffeeMachineService._settings CoffeeMachineService._machine].
  - destruct (brew key m) as [m' [e|usage]]; cbn [fst snd];
      [reflexivity|];
      cbn [fst snd CoffeeMachineService._storage
           CoffeeMachineService._settings CoffeeMachineService._machine].
    destruct (save (to_dict m') (storage, w)) as [[storage' w'] [e|[]]];
      reflexivity.
  - destruct (fill_water amount m) as [m' [e|[]]]; cbn [fst snd];
      [reflexivity|];
      cbn [fst snd CoffeeMachineService._storage
           CoffeeMachineService._settings CoffeeMachineService._machine].
    destruct (save (to_dict m') (storage, w)) as [[storage' w'] [e|[]]];
      reflexivity.
  - destruct (fill_coffee amount m) as [m' [e|[]]]; cbn [fst snd];
      [reflexivity|];
      cbn [fst snd CoffeeMachineService._storage
           CoffeeMachineService._settings CoffeeMachineService._machine].
    destruct (save (to_dict m') (storage, w)) as [[storage' w'] [e|[]]];
      reflexivity.
Qed.

Lemma raised_not_status (c : Call) (m : CoffeeMachine.t) (e : exn) :
  raised c m = Some e -> c <> CallStatus.
Proof. intros Hr ->. discriminate Hr. Qed.

(** X19. A call of the service whose machine call raises hands the same
    exception on and saves nothing: the storage object, the files and the
    databases are as before, and the service keeps the machine as the
    failed call left it, which for every call but [brew] is the machine
    as it was. *)
Theorem failed_call_saves_nothing (c : Call)
    (svc : CoffeeMachineService.t) (w : World) (e : exn) :
  raised c (CoffeeMachineService._machine svc) = Some e ->
  serve c (svc, w) =
    ((CoffeeMachineService.mk
        (CoffeeMachineService._storage svc)
        (CoffeeMachineService._settings svc)
        (perform c (CoffeeMachineService._machine svc)), w),
     inl e)
  /\ ((forall key, c <> CallBrew key) -> serve c (svc, w) = ((svc, w), inl e)).
Proof.
  intros Hr.
  pose proof (serve_unfold c svc w (raised_not_status c _ e Hr)) as E.
  cbv zeta in E. rewrite Hr in E. split; [exact E|].
  intros Hc. rewrite E.
  rewrite (raising_call_keeps_last_message_aux c _ e Hr Hc).
  destruct svc; reflexivity.
Qed.

Lemma truthy_to_dict (m : CoffeeMachine.t) : truthy (to_dict m) = true.
Proof. reflexivity. Qed.

Lemma init_unfold (storage : StateStorage) (settings : Settings)
    (w : World) :
  CoffeeMachineService.init storage settings w =
  let fresh := default_machine (water_capacity_ml settings)
                               (coffee_capacity_g settings) in
  match outcome (load (storage, w)) with
  | inl e => (w, inl e)
  | inr None => (w, inr (CoffeeMachineService.mk storage settings fresh))
  | inr (Some data) =>
      if truthy data then
        match from_dict data with
        | inl e => (w, inl e)
        | inr m => (w, inr (CoffeeMachineService.mk storage settings m))
        end
      else (w, inr (CoffeeMachineService.mk storage settings fresh))
  end.
Proof.
  pose proof (load_unchanged storage w) as Hsame.
  unfold CoffeeMachineService.init, CoffeeMachineService._load_machine,
    mbind, Py_bind, lift, mret, Py_ret.
  destruct (load (storage, w)) as [[storage' w'] r].
  cbn [state_of outcome fst snd] in *. injection Hsame as -> ->.
  destruct r as [e|[data|]]; [reflexivity| |reflexivity].
  destruct (truthy data); [|reflexivity].
  destruct (from_dict data); reflexivity.
Qed.

(** X20. With a JSON library that decodes what it encodes, a [brew],
    [fill_water] or [fill_coffee] of the service that returns has saved
    the machine it leaves in memory: loading the storage gives that
    machine's snapshot, and a service rebuilt on the same storage object
    and settings has the same machine. *)
Theorem returned_call_is_durable `{!PyLibSpec L} (c : Call)
    (svc svc' : CoffeeMachineService.t) (w w' : World) (body : json) :
  c <> CallStatus ->
  serve c (svc, w) = ((svc', w'), inr body) ->
  CoffeeMachineService._machine svc'
    = perform c (CoffeeMachineService._machine svc)
  /\ outcome (load (CoffeeMachineService._storage svc', w'))
     = inr (Some (to_dict (CoffeeMachineService._machine svc')))
  /\ restart svc' w' = (w', inr svc').
Proof.
  intros Hc Hserve. rewrite (serve_unfold c svc w Hc) in Hserve.
  cbv zeta in Hserve.
  destruct (raised c (CoffeeMachineService._machine svc)); [discriminate|].
  destruct (save _ _) as [[storage' w''] [e|[]]] eqn:Hsave; [discriminate|].
  injection Hserve as <- <- _.
  cbn [CoffeeMachineService._machine CoffeeMachineService._storage].
  pose proof (save_then_load_returns _ _ _ _ _ (to_dict_wf _) Hsave) as Hload.
  split; [reflexivity|]. split; [rewrite Hload; reflexivity|].
  unfold restart.
  cbn [CoffeeMachineService._storage CoffeeMachineService._settings].
  rewrite init_unfold, Hload. cbv zeta. cbn [outcome snd].
  rewrite truthy_to_dict, from_dict_to_dict. reflexivity.
Qed.

(** X21. A service built on a storage whose [load()] gives [None], or a
    document that Python counts as false (an empty dict, [null], zero, an
    empty string or list), starts from [default_machine] with the
    capacities of the settings and touches nothing. *)
Theorem init_without_state_uses_defaults (storage : StateStorage)
    (settings : Settings) (w : World) :
  (outcome (load (storage, w)) = inr None
   \/ exists data, outcome (load (storage, w)) = inr (Some data)
                   /\ truthy data = false) ->
  CoffeeMachineService.init storage settings w =
  (w, inr (CoffeeMachineService.mk storage settings
             (default_machine (water_capacity_ml settings)
                              (coffee_capacity_g settings)))).
Proof.
  intros [Hnone|(data & Hdata & Hfalse)]; rewrite init_unfold; cbv zeta.
  - rewrite Hnone. reflexivity.
  - rewrite Hdata, Hfalse. reflexivity.
Qed.

Lemma returned_call_sets_message (c : Call) (m : CoffeeMachine.t) :
  c <> CallStatus -> raised c m = None ->
  exists msg, last_message (perform c m) = Some msg.
Proof.
  destruct c as [key|amount|amount|]; unfold raised, error_of, perform;
    intros Hc Hr; [| | |contradiction].
  - destruct (RECIPES !! key) as [r|] eqn:Hk.
    + rewrite (brew_unfold key r m Hk) in *. cbv zeta in *.
      destruct (_ <? water_ml r); [discriminate|].
      destruct (_ <? coffee_g r); [discriminate|]. simpl. eauto.
    + rewrite (brew_unknown key m Hk) in Hr. discriminate.
  - rewrite fill_water_unfold in *.
    destruct (Container.fill amount (water_container m)) as [w' [e|[]]];
      [discriminate|]. simpl. eauto.
  - rewrite fill_coffee_unfold in *.
    destruct (Container.fill amount (coffee_container m)) as [c' [e|[]]];
      [discriminate|]. simpl. eauto.
Qed.

Lemma reachable_machine_status (W C : Z) (m : CoffeeMachine.t) :
  0 < W -> 0 < C -> reachable W C m ->
  Schemas.MachineStatus (to_dict m) = true.
Proof.
  intros HW HC Hreach.
  destruct (reachable_bounds W C m ltac:(lia) ltac:(lia) Hreach)
    as [[Hw _] [Hc _]].
  rewrite (labelled_status_schema W C m (reachable_labelled W C m Hreach)).
  repeat (apply andb_true_intro; split);
    first [apply Z.ltb_lt | apply Z.leb_le]; assumption.
Qed.

(** X22. On a service whose machine was reached from
    [default_machine(W, C)] with positive capacities, whatever a service
    method returns meets the constraints of the model its route builds
    from it: [BrewResponse] for [brew], [FillResponse] for the two fills,
    [MachineStatus] for [status]. *)
Theorem answers_fit_their_models (W C : Z) (c : Call)
    (svc svc' : CoffeeMachineService.t) (w w' : World) (body : json) :
  0 < W -> 0 < C ->
  reachable W C (CoffeeMachineService._machine svc) ->
  serve c (svc, w) = ((svc', w'), inr body) ->
  match c with
  | CallBrew _ => Schemas.BrewResponse body
  | CallFillWater _ | CallFillCoffee _ => Schemas.FillResponse body
  | CallStatus => Schemas.MachineStatus body
  end = true.
Proof.
  intros HW HC Hreach Hserve.
  assert (Hdec : c = CallStatus \/ c <> CallStatus)
    by (destruct c; auto; right; discriminate).
  destruct Hdec as [->|Hc].
  - destruct svc as [storage settings m]. injection Hserve as _ _ <-.
    apply (reachable_machine_status W C); assumption.
  - rewrite (serve_unfold c svc w Hc) in Hserve. cbv zeta in Hserve.
    destruct (raised c (CoffeeMachineService._machine svc)) eqn:Hr;
      [discriminate|].
    destruct (save _ _) as [[storage' w''] [e|[]]]; [discriminate|].
    injection Hserve as _ _ <-.
    destruct (returned_call_sets_message c _ Hc Hr) as [msg Hmsg].
    pose proof (reachable_machine_status W C _ HW HC
                  (reach_call W C _ c Hreach)) as Hstatus.
    destruct c as [key|amount|amount|]; [| | |contradiction];
      unfold answer, Schemas.BrewResponse, Schemas.FillResponse,
        Schemas.required_str; cbn [subscript List.find fst snd String.eqb
        Ascii.eqb Bool.eqb]; rewrite Hmsg, Hstatus; cbn [json_of_message andb];
      [|reflexivity|reflexivity].
    unfold usage_of, raised, error_of, outcome in *.
    destruct (RECIPES !! key) as [r|] eqn:Hk.
    + destruct (recipes_positive key r Hk) as [Pw Pc].
      rewrite (brew_unfold key r _ Hk) in *. cbv zeta in *.
      destruct (_ <? water_ml r); [discriminate|].
      destruct (_ <? coffee_g r); [discriminate|].
      cbn. unfold Schemas.PositiveInt.
      rewrite (proj2 (Z.ltb_lt 0 (water_ml r)) Pw),
              (proj2 (Z.ltb_lt 0 (coffee_g r)) Pc).
      reflexivity.
    + rewrite (brew_unknown key _ Hk) in Hr. discriminate.
Qed.

Lemma container_sent (c : Container.t) :
  Models.ContainerStatus (Container.to_dict c) =
  if Schemas.ContainerStatus (Container.to_dict c)
  then Some (sent_container c) else None.
Proof.
  unfold Models.ContainerStatus.
  destruct (Schemas.ContainerStatus (Container.to_dict c)); [|reflexivity].
  destruct c. reflexivity.
Qed.

Lemma status_sent (m : CoffeeMachine.t) :
  Models.MachineStatus (to_dict m) =
  if Schemas.MachineStatus (to_dict m) then Some (sent_status m) else None.
Proof.
  unfold Models.MachineStatus.
  destruct (Schemas.MachineStatus (to_dict m)) eqn:Hm; [|reflexivity].
  destruct m as [w c msg].
  unfold Schemas.MachineStatus in Hm.
  cbn [to_dict subscript List.find fst snd String.eqb Ascii.eqb Bool.eqb
       water_container coffee_container] in Hm.
  apply andb_true_iff in Hm as [Hm _]. apply andb_true_iff in Hm as [Hw Hc].
  cbn [to_dict subscript dict_get List.find fst snd String.eqb Ascii.eqb
       Bool.eqb water_container coffee_container last_message value_of
       mbind option_bind].
  rewrite !container_sent, Hw, Hc. reflexivity.
Qed.

Lemma usage_sent (r : Recipe) :
  Models.BrewUsage (json_of_recipe r) =
  if Schemas.BrewUsage (json_of_recipe r)
  then Some (json_of_recipe r) else None.
Proof.
  unfold Models.BrewUsage.
  destruct (Schemas.BrewUsage (json_of_recipe r)); reflexivity.
Qed.

(** What the endpoint function of a call does: the method of the
    service, then the construction of the response model. *)
Lemma endpoint_unfold (c : Call) (sw : CoffeeMachineService.t * World) :
  endpoint c sw =
  match serve c sw with
  | (sw', inl e) => (sw', inl e)
  | (sw', inr answer) =>
      match sent_for c answer with
      | Some sent => (sw', inr sent)
      | None =>
          (sw', inl (ValidationError
                       (validation_error_str
                          match c with
                          | CallBrew _ => "BrewResponse"
                          | CallFillWater _ | CallFillCoffee _ =>
                              "FillResponse"
                          | CallStatus => "StatusResponse"
                          end answer)))
      end
  end.
Proof.
  destruct c as [key|amount|amount|];
    unfold endpoint, Api.brew_body, Api.fill_water_body,
      Api.fill_coffee_body, Api.status_body, serve, sent_for, construct,
      mbind, Py_bind.
  - destruct (CoffeeMachineService.brew key sw) as [sw' [e|answer]];
      [reflexivity|].
    destruct (Models.BrewResponse answer); reflexivity.
  - destruct (CoffeeMachineService.fill_water amount sw)
      as [sw' [e|answer]]; [reflexivity|].
    destruct (Models.FillResponse answer); reflexivity.
  - destruct (CoffeeMachineService.fill_coffee amount sw)
      as [sw' [e|answer]]; [reflexivity|].
    destruct (Models.FillResponse answer); reflexivity.
  - destruct (CoffeeMachineService.status sw) as [sw' [e|answer]];
      [reflexivity|].
    destruct (Models.StatusResponse answer); reflexivity.
Qed.

(** For an unknown recipe the endpoint function of a brew route raises
    what the service raises, before any response model is built. *)
Lemma unknown_recipe_route_agrees (key : string)
    (svc : CoffeeMachineService.t) (w : World) :
  RECIPES !! key = None ->
  route (Api.brew_body key) (svc, w)
  = route (CoffeeMachineService.brew key) (svc, w).
Proof.
  intros Hk. unfold route, Api.brew_body, mbind, Py_bind.
  rewrite (service_brew_raises key svc w
             (ValueError ("Unknown recipe '" ++ key ++ "'")))
    by (rewrite (brew_unknown _ _ Hk); reflexivity).
  reflexivity.
Qed.

(** X23. The two status routes leave the service, the files and the
    databases as they were, whatever they answer.  They answer 200 with
    the machine's snapshot under [status], its keys in the order of the
    model's fields, exactly when the snapshot meets the [MachineStatus]
    model, which it does for every machine reached from a default machine
    with positive capacities; otherwise the construction of
    [StatusResponse] raises and the answer is the one of the handler for
    unexpected errors. *)
Theorem status_routes_only_read (svc : CoffeeMachineService.t) (w : World) :
  let m := CoffeeMachineService._machine svc in
  Api.root_status (svc, w) = Api.status_endpoint (svc, w)
  /\ Api.status_endpoint (svc, w) =
     ((svc, w),
      if Schemas.MachineStatus (to_dict m) then
        {| status_code := 200;
           content := JDict [ ("status", sent_status m) ] |}
      else
        handle_unexpected_error
          (ValidationError
             (validation_error_str "StatusResponse" (to_dict m))))
  /\ (forall W C, 0 < W -> 0 < C -> reachable W C m ->
        Api.status_endpoint (svc, w) =
        ((svc, w),
         {| status_code := 200;
            content := JDict [ ("status", sent_status m) ] |})).
Proof.
  cbv zeta.
  assert (Hroute :
    Api.status_endpoint (svc, w) =
    ((svc, w),
     if Schemas.MachineStatus (to_dict (CoffeeMachineService._machine svc))
     then {| status_code := 200;
             content := JDict [ ("status",
               sent_status (CoffeeMachineService._machine svc)) ] |}
     else handle_unexpected_error
            (ValidationError
               (validation_error_str "StatusResponse"
                  (to_dict (CoffeeMachineService._machine svc)))))).
  { unfold Api.status_endpoint, route.
    change Api.status_body with (endpoint CallStatus).
    rewrite endpoint_unfold. destruct svc as [storage settings m].
    cbn [serve CoffeeMachineService.status CoffeeMachineService.on_machine
         on_field status fst snd CoffeeMachineService._machine
         CoffeeMachineService._storage CoffeeMachineService._settings
         sent_for Models.StatusResponse].
    unfold CoffeeMachineService.status, CoffeeMachineService.on_machine,
      on_field.
    cbn [fst snd CoffeeMachineService._machine CoffeeMachineService._storage
         CoffeeMachineService._settings].
    rewrite status_unfold. cbn [sent_for]. unfold Models.StatusResponse.
    rewrite status_sent.
    destruct (Schemas.MachineStatus (to_dict m)); reflexivity. }
  split; [reflexivity|]. split; [exact Hroute|].
  intros W C HW HC Hreach. rewrite Hroute.
  rewrite (reachable_machine_status W C _ HW HC Hreach). reflexivity.
Qed.

Lemma answer_meets_schema (W C : Z) (c : Call) (m : CoffeeMachine.t) :
  0 < W -> 0 < C -> reachable W C m ->
  c <> CallStatus -> raised c m = None ->
  Schemas.MachineStatus (to_dict (perform c m)) = true
  /\ (exists msg, last_message (perform c m) = Some msg)
  /\ (forall key, c = CallBrew key ->
        exists r, usage_of c m = json_of_recipe r
                  /\ Schemas.BrewUsage (json_of_recipe r) = true).
Proof.
  intros HW HC Hreach Hc Hr.
  split; [|split].
  - apply (reachable_machine_status W C); try assumption.
    apply reach_call, Hreach.
  - apply returned_call_sets_message; assumption.
  - intros key ->. unfold usage_of, raised, error_of, outcome in *.
    destruct (RECIPES !! key) as [r|] eqn:Hk.
    + destruct (recipes_positive key r Hk) as [Pw Pc].
      rewrite (brew_unfold key r _ Hk) in *. cbv zeta in *.
      destruct (_ <? water_ml r); [discriminate|].
      destruct (_ <? coffee_g r); [discriminate|].
      exists r. split; [reflexivity|].
      unfold Schemas.BrewUsage, Schemas.PositiveInt. cbn.
      rewrite (proj2 (Z.ltb_lt 0 (water_ml r)) Pw),
              (proj2 (Z.ltb_lt 0 (coffee_g r)) Pc).
      reflexivity.
    + rewrite (brew_unknown key _ Hk) in Hr. discriminate.
Qed.

Lemma answer_sent (W C : Z) (c : Call) (m : CoffeeMachine.t) :
  0 < W -> 0 < C -> reachable W C m ->
  c <> CallStatus -> raised c m = None ->
  sent_for c (answer c (usage_of c m) (perform c m))
  = Some (sent_answer c (usage_of c m) (perform c m)).
Proof.
  intros HW HC Hreach Hc Hr.
  destruct (answer_meets_schema W C c m HW HC Hreach Hc Hr)
    as (Hstatus & [msg Hmsg] & Husage).
  destruct c as [key|amount|amount|]; [| | |contradiction];
    unfold sent_for, answer, sent_answer, Models.BrewResponse,
      Models.FillResponse, Schemas.BrewResponse, Schemas.FillResponse,
      Schemas.required_str;
    cbn [subscript List.find fst snd String.eqb Ascii.eqb Bool.eqb value_of
         mbind option_bind];
    rewrite Hmsg, Hstatus, status_sent, Hstatus;
    cbn [json_of_message andb mbind option_bind];
    [|reflexivity|reflexivity].
  destruct (Husage key eq_refl) as (r & -> & Hu).
  rewrite usage_sent, Hu. reflexivity.
Qed.

(** X24. A mutating route, on any backend.  When the machine call raises,
    the route gives the exception handler's answer for that exception and
    nothing is saved; the answer has status 400, except for the
    [ValueError] of an unknown recipe.  When the service call returns, on
    a machine reached from a default machine with positive capacities,
    the response model accepts the answer and the route sends it with
    status 200, the keys in the order of the model's fields. *)
Theorem mutating_route_outcomes (c : Call)
    (svc : CoffeeMachineService.t) (w : World) :
  c <> CallStatus ->
  let m := CoffeeMachineService._machine svc in
  (forall e, raised c m = Some e ->
     route (endpoint c) (svc, w) =
       ((CoffeeMachineService.mk (CoffeeMachineService._storage svc)
           (CoffeeMachineService._settings svc) (perform c m), w),
        exception_handler e)
     /\ (status_code (exception_handler e) = HTTP_400_BAD_REQUEST
         \/ exists key, c = CallBrew key /\ RECIPES !! key = None))
  /\ (forall W C svc' w' answer,
        0 < W -> 0 < C -> reachable W C m ->
        serve c (svc, w) = ((svc', w'), inr answer) ->
        route (endpoint c) (svc, w) =
          ((svc', w'),
           {| status_code := 200;
              content := sent_answer c (usage_of c m) (perform c m) |})).
Proof.
  intros Hc. cbv zeta. split.
  - intros e Hr. split.
    + unfold route. rewrite endpoint_unfold, (serve_unfold c svc w Hc).
      cbv zeta. rewrite Hr. reflexivity.
    + destruct (raised_kinds c _ e Hr) as [Hdom|[key ->]].
      * left. unfold exception_handler. rewrite Hdom. reflexivity.
      * right. destruct c as [key'|amount|amount|];
          unfold raised, error_of in Hr.
        -- exists key'. split; [reflexivity|].
           apply (brew_value_error_only_if_unknown key'
                    (CoffeeMachineService._machine svc)
                    ("Unknown recipe '" ++ key ++ "'")).
           unfold outcome.
           destruct (snd (brew key' (CoffeeMachineService._machine svc)));
             congruence.
        -- rewrite fill_water_unfold, fill_unfold in Hr.
           destruct (amount <=? 0); [discriminate|].
           destruct (_ <? amount); discriminate.
        -- rewrite fill_coffee_unfold, fill_unfold in Hr.
           destruct (amount <=? 0); [discriminate|].
           destruct (_ <? amount); discriminate.
        -- discriminate.
  - intros W C svc' w' body HW HC Hreach Hserve.
    unfold route. rewrite endpoint_unfold, Hserve.
    rewrite (serve_unfold c svc w Hc) in Hserve. cbv zeta in Hserve.
    destruct (raised c (CoffeeMachineService._machine svc)) eqn:Hr;
      [discriminate|].
    destruct (save _ _) as [[storage' w''] [e|[]]]; [discriminate|].
    injection Hserve as _ _ <-.
    rewrite (answer_sent W C c _ HW HC Hreach Hc Hr). reflexivity.
Qed.

(** X25. The fill routes refuse a request whose amount is not positive
    before the service is called; for the amounts they let through, a
    fill on the machine can only raise [ContainerOverflowError], never
    [InvalidFillAmountError]. *)
Theorem fill_routes_screen_amounts (amount : Z)
    (sw : CoffeeMachineService.t * World) (m : CoffeeMachine.t) :
  (Api.fill_water amount sw = None <-> amount <= 0)
  /\ (Api.fill_coffee amount sw = None <-> amount <= 0)
  /\ (Schemas.FillWaterRequest amount = true ->
      forall e, raised (CallFillWater amount) m = Some e ->
        e = ContainerOverflowError (Container.name (water_container m))
              amount
              (Container.capacity (water_container m)
               - Container.level (water_container m)))
  /\ (Schemas.FillCoffeeRequest amount = true ->
      forall e, raised (CallFillCoffee amount) m = Some e ->
        e = ContainerOverflowError (Container.name (coffee_container m))
              amount
              (Container.capacity (coffee_container m)
               - Container.level (coffee_container m))).
Proof.
  unfold Api.fill_water, Api.fill_coffee, Schemas.FillWaterRequest,
    Schemas.FillCoffeeRequest, Schemas.PositiveInt.
  repeat split.
  - destruct (Z.ltb_spec 0 amount); [discriminate|auto].
  - destruct (Z.ltb_spec 0 amount); [lia|reflexivity].
  - destruct (Z.ltb_spec 0 amount); [discriminate|auto].
  - destruct (Z.ltb_spec 0 amount); [lia|reflexivity].
  - intros Hpos e. apply Z.ltb_lt in Hpos.
    unfold raised, error_of. rewrite fill_water_unfold, fill_unfold.
    destruct (Z.leb_spec amount 0); [lia|].
    destruct (_ <? amount); [intros [= <-]; reflexivity|discriminate].
  - intros Hpos e. apply Z.ltb_lt in Hpos.
    unfold raised, error_of. rewrite fill_coffee_unfold, fill_unfold.
    destruct (Z.leb_spec amount 0); [lia|].
    destruct (_ <? amount); [intros [= <-]; reflexivity|discriminate].
Qed.

(** X26. A [brew] through the service that fails on the coffee after the
    water was debited leaves memory and storage in disagreement: nothing
    is saved, so a service rebuilt on the same storage is the one a
    rebuild before the call would have given, while the running service
    keeps the machine with the lowered water level. *)
Theorem failed_brew_on_coffee_is_not_saved (key : string) (r : Recipe)
    (svc : CoffeeMachineService.t) (w : World) :
  RECIPES !! key = Some r ->
  water_ml r <= Container.level
                  (water_container (CoffeeMachineService._machine svc)) ->
  Container.level (coffee_container (CoffeeMachineService._machine svc))
    < coffee_g r ->
  let after := state_of (serve (CallBrew key) (svc, w)) in
  snd after = w
  /\ restart (fst after) w = restart svc w
  /\ Container.level
       (water_container (CoffeeMachineService._machine (fst after)))
     = Container.level
         (water_container (CoffeeMachineService._machine svc))
       - water_ml r
  /\ CoffeeMachineService._machine (fst after)
     <> CoffeeMachineService._machine svc.
Proof.
  intros Hr Hw Hc. cbv zeta.
  destruct (recipes_positive key r Hr) as [Pw _].
  destruct (brew_coffee_shortage key r _ Hr Hw Hc) as (He & Hlevel & _ & _).
  assert (Hraised : raised (CallBrew key) (CoffeeMachineService._machine svc)
                    = Some (ContainerEmptyError
                              (Container.name
                                 (coffee_container
                                    (CoffeeMachineService._machine svc)))
                              (coffee_g r)
                              (Container.level
                                 (coffee_container
                                    (CoffeeMachineService._machine svc))))).
  { unfold raised, error_of. unfold outcome in He. rewrite He. reflexivity. }
  rewrite (serve_unfold (CallBrew key) svc w ltac:(discriminate)).
  cbv zeta. rewrite Hraised.
  cbn [state_of fst snd CoffeeMachineService._machine perform].
  repeat split.
  - exact Hlevel.
  - intros Heq. rewrite Heq in Hlevel. lia.
Qed.

End ServiceProperties.

(** ** The same, run on the reference library *)

#[local] Existing Instance model_pydantic.

Lemma failed_call_saves_nothing_witness :
  serve (H := model_lib) (CallFillWater 0) (sample_service, empty_world)
  = ((sample_service, empty_world),
     inl (InvalidFillAmountError "water" 0)).
Proof.
  apply (proj2 (failed_call_saves_nothing (L := model_lib) (CallFillWater 0)
                  sample_service empty_world
                  (InvalidFillAmountError "water" 0)
                  ltac:(reflexivity))).
  intros key. discriminate.
Defined.

Lemma returned_call_is_durable_witness :
  let storage := Json (JSONStateStorage.mk "data/state.json") in
  let brewed := mk (Container.mk "water" 200 176 "ml")
                   (Container.mk "coffee" 100 92 "g")
                   (Some "Espresso is ready!") in
  let svc' := CoffeeMachineService.mk storage sample_settings brewed in
  let w' := json_saved (H := model_lib) "data/state.json" (to_dict brewed)
              empty_world in
  restart (H := model_lib) svc' w' = (w', inr svc').
Proof.
  intros storage brewed svc' w'.
  assert (Hlib : PyLibSpec model_lib).
  { constructor. intros indent v Hwf. reflexivity. }
  apply (returned_call_is_durable (L := model_lib) (CallBrew "espresso")
           (CoffeeMachineService.mk storage sample_settings
              (default_machine 200 100))
           svc' empty_world w'
           (answer (CallBrew "espresso")
              (json_of_recipe {| water_ml := 24; coffee_g := 8 |}) brewed)).
  - discriminate.
  - vm_compute. reflexivity.
Defined.

Lemma init_without_state_uses_defaults_witness :
  let storage := Json (JSONStateStorage.mk "data/state.json") in
  let w := {| files := {[ "data/state.json" := Some (JDict []) ]};
              databases := ∅ |} : @World model_lib in
  CoffeeMachineService.init (H := model_lib) storage sample_settings w
  = (w, inr (CoffeeMachineService.mk storage sample_settings
               (default_machine 200 100))).
Proof.
  intros storage w.
  apply (init_without_state_uses_defaults (L := model_lib) storage
           sample_settings w).
  right. exists (JDict []). split; reflexivity.
Defined.

Lemma answers_fit_their_models_witness :
  Schemas.BrewResponse
    (answer (CallBrew "espresso")
       (json_of_recipe {| water_ml := 24; coffee_g := 8 |})
       (mk (Container.mk "water" 200 176 "ml")
           (Container.mk "coffee" 100 92 "g")
           (Some "Espresso is ready!")))
  = true.
Proof.
  apply (answers_fit_their_models (L := model_lib) 200 100
           (CallBrew "espresso") sample_service
           (CoffeeMachineService.mk
              (Memory (MemoryStateStorage.mk
                 (Some (to_dict (mk (Container.mk "water" 200 176 "ml")
                                    (Container.mk "coffee" 100 92 "g")
                                    (Some "Espresso is ready!"))))))
              sample_settings
              (mk (Container.mk "water" 200 176 "ml")
                  (Container.mk "coffee" 100 92 "g")
                  (Some "Espresso is ready!")))
           empty_world empty_world).
  - lia.
  - lia.
  - apply reach_default.
  - vm_compute. reflexivity.
Defined.

Lemma status_routes_only_read_witness :
  Api.status_endpoint (H := model_lib) (H0 := model_pydantic)
    (sample_service, empty_world)
  = ((sample_service, empty_world),
     {| status_code := 200;
        content := JDict [ ("status", JDict [
          ("water", JDict [ ("name", JStr "water"); ("capacity", JInt 200);
                            ("level", JInt 200); ("unit", JStr "ml") ]);
          ("coffee", JDict [ ("name", JStr "coffee"); ("capacity", JInt 100);
                             ("level", JInt 100); ("unit", JStr "g") ]);
          ("last_message", JNull) ]) ] |}).
Proof.
  apply (proj2 (proj2 (status_routes_only_read (L := model_lib)
                         (P := model_pydantic)
                         sample_service empty_world)) 200 100).
  - lia.
  - lia.
  - apply reach_default.
Defined.

Lemma mutating_route_outcomes_witness :
  let s := JSONStateStorage.mk "data/state.json" in
  let brewed := mk (Container.mk "water" 200 176 "ml")
                   (Container.mk "coffee" 100 92 "g")
                   (Some "Espresso is ready!") in
  Api.brew_espresso (H := model_lib) (H0 := model_pydantic)
    (CoffeeMachineService.mk (Json s) sample_settings
       (default_machine 200 100), empty_world)
  = ((CoffeeMachineService.mk (Json s) sample_settings brewed,
      json_saved (H := model_lib) "data/state.json" (to_dict brewed)
        empty_world),
     {| status_code := 200;
        content := JDict [
          ("message", JStr "Espresso is ready!");
          ("drink", JStr "espresso");
          ("used", JDict [ ("water_ml", JInt 24); ("coffee_g", JInt 8) ]);
          ("status", JDict [
             ("water", JDict [ ("name", JStr "water");
                               ("capacity", JInt 200);
                               ("level", JInt 176); ("unit", JStr "ml") ]);
             ("coffee", JDict [ ("name", JStr "coffee");
                                ("capacity", JInt 100);
                                ("level", JInt 92); ("unit", JStr "g") ]);
             ("last_message", JStr "Espresso is ready!") ]) ] |}).
Proof.
  intros s brewed.
  apply (proj2 (mutating_route_outcomes (L := model_lib)
                  (P := model_pydantic) (CallBrew "espresso")
                  (CoffeeMachineService.mk (Json s) sample_settings
                     (default_machine 200 100))
                  empty_world ltac:(discriminate))
           200 100
           (CoffeeMachineService.mk (Json s) sample_settings brewed)
           (json_saved (H := model_lib) "data/state.json" (to_dict brewed)
              empty_world)
           (answer (CallBrew "espresso")
              (json_of_recipe {| water_ml := 24; coffee_g := 8 |}) brewed)).
  - lia.
  - lia.
  - apply reach_default.
  - vm_compute. reflexivity.
Defined.

Lemma fill_routes_screen_amounts_witness :
  Api.fill_water (H := model_lib) 0 (sample_service, empty_world) = None
  /\ Api.fill_coffee (H := model_lib) (-5) (sample_service, empty_world)
     = None.
Proof.
  destruct (fill_routes_screen_amounts (L := model_lib) 0
              (sample_service, empty_world) (default_machine 200 100))
    as (Hwater & _).
  destruct (fill_routes_screen_amounts (L := model_lib) (-5)
              (sample_service, empty_world) (default_machine 200 100))
    as (_ & Hcoffee & _).
  split; [apply Hwater | apply Hcoffee]; lia.
Defined.

Lemma failed_brew_on_coffee_is_not_saved_witness :
  let svc := CoffeeMachineService.mk
               (Json (JSONStateStorage.mk "data/state.json"))
               sample_settings (default_machine 200 10) in
  let after := state_of (serve (H := model_lib) (CallBrew "double_espresso")
                           (svc, empty_world)) in
  snd after = empty_world
  /\ Container.level
       (water_container (CoffeeMachineService._machine (fst after)))
     = 152.
Proof.
  intros svc after.
  destruct (failed_brew_on_coffee_is_not_saved (L := model_lib)
              "double_espresso" {| water_ml := 48; coffee_g := 16 |}
              svc empty_world)
    as (Hworld & _ & Hlevel & _).
  - vm_compute. reflexivity.
  - simpl. lia.
  - simpl. lia.
  - split; [exact Hworld | exact Hlevel].
Defined.

Lemma json_save_touches_only_its_target_witness :
  let w := {| files := {[ "data/other.json" := Some JNull ]};
              databases := ∅ |} : @World model_lib in
  let w' := snd (state_of
              (save (H := model_lib) (to_dict (default_machine 200 100))
                 (Json (JSONStateStorage.mk "data/state.json"), w))) in
  files w' !! "data/state.tmp" = None
  /\ files w' !! "data/other.json" = Some (Some JNull).
Proof.
  intros w w'.
  destruct (json_save_touches_only_its_target (L := model_lib)
              (to_dict (default_machine 200 100))
              (JSONStateStorage.mk "data/state.json") w)
    as (_ & Htmp & Hother & _).
  - reflexivity.
  - reflexivity.
  - reflexivity.
  - split.
    + apply Htmp. vm_compute. discriminate.
    + transitivity (files w !! "data/other.json"); [|reflexivity].
      apply Hother; vm_compute; discriminate.
Defined.
